(** * linkanalytics: the record store and hit log of [main.go]

    The program keeps one file per link in its working directory.  The file
    is named after the SHA-256 digest of the destination, its first line is
    the destination and every later line is one hit written by a [log.Logger].

    The development embeds [main.go] over an explicit directory state
    ([gmap string file]); the pieces of the Go standard library the program
    calls ([crypto/sha256], [encoding/hex], [bufio.Scanner], [log], [os]) are
    modelled by what they compute. *)

From Stdlib Require Import ZArith NArith Ascii String Lia.
From stdpp Require Import base option list strings gmap.

Local Open Scope Z_scope.

(** ** Go strings

    A Go [string] is a sequence of bytes: Rocq's [string] of 8-bit [ascii]. *)

Module GoString.

Definition LF : ascii := ascii_of_N 10.
Definition CR : ascii := ascii_of_N 13.

(** [len(s)] *)
Fixpoint len (s : string) : N :=
  match s with
  | EmptyString => 0%N
  | String _ r => N.succ (len r)
  end.

(** [[]byte(s)], each byte as an integer in [0, 256). *)
Fixpoint bytes (s : string) : list Z :=
  match s with
  | EmptyString => []
  | String c r => Z.of_N (N_of_ascii c) :: bytes r
  end.

(** [bytes.IndexByte(data, c)] ([None] for Go's [-1]). *)
Fixpoint IndexByte (s : string) (c : ascii) : option N :=
  match s with
  | EmptyString => None
  | String x r =>
      if Ascii.eqb x c then Some 0%N
      else match IndexByte r c with
           | Some i => Some (N.succ i)
           | None => None
           end
  end.

(** [s[0:n]] (the whole of [s] when it is shorter). *)
Fixpoint slice_to (n : N) (s : string) : string :=
  match s with
  | EmptyString => EmptyString
  | String x r =>
      if (n =? 0)%N then EmptyString else String x (slice_to (N.pred n) r)
  end.

(** The text cut at every line feed; a final line needs no terminator. *)
Fixpoint lines (s : string) : list string :=
  match s with
  | EmptyString => []
  | String x r =>
      if Ascii.eqb x LF then EmptyString :: lines r
      else match lines r with
           | [] => [String x EmptyString]
           | l :: ls => String x l :: ls
           end
  end.

(** [s] holds no line feed. *)
Definition one_line (s : string) : Prop := IndexByte s LF = None.

(** [strings.HasSuffix(s, "\r")] *)
Fixpoint ends_with_CR (s : string) : bool :=
  match s with
  | EmptyString => false
  | String x EmptyString => Ascii.eqb x CR
  | String _ r => ends_with_CR r
  end.

(** [strings.Contains(s, sub)] *)
Fixpoint Contains (s sub : string) : bool :=
  String.prefix sub s ||
  match s with
  | EmptyString => false
  | String _ r => Contains r sub
  end.

End GoString.

Import GoString.

(** ** crypto/sha256 and encoding/hex *)

Module Sha256.

Definition mask32 : Z := 0xffffffff.
Definition u32 (x : Z) : Z := Z.land x mask32.
Definition add32 (x y : Z) : Z := u32 (x + y).
(** [bits.RotateLeft32(x, -n)] *)
Definition rotr (x n : Z) : Z :=
  u32 (Z.lor (Z.shiftr x n) (Z.shiftl x (32 - n))).
(** [^x] on a [uint32] *)
Definition not32 (x : Z) : Z := Z.lxor x mask32.

(** The first 64 primes. *)
Definition primes : list Z :=
  [ 2; 3; 5; 7; 11; 13; 17; 19; 23; 29; 31; 37; 41; 43; 47; 53; 59; 61; 67;
    71; 73; 79; 83; 89; 97; 101; 103; 107; 109; 113; 127; 131; 137; 139; 149;
    151; 157; 163; 167; 173; 179; 181; 191; 193; 197; 199; 211; 223; 227;
    229; 233; 239; 241; 251; 257; 263; 269; 271; 277; 281; 283; 293; 307;
    311 ].

(** The integer cube root of [n] below [2 ^ bits], found bit by bit. *)
Fixpoint cube_root (bits : nat) (n r : Z) : Z :=
  match bits with
  | O => r
  | S b =>
      let c := r + 2 ^ Z.of_nat b in
      cube_root b n (if c * c * c <=? n then c else r)
  end.

(** The first 32 bits of the fractional part of the cube root of [p]. *)
Definition frac_cube_root (p : Z) : Z := u32 (cube_root 36 (p * 2 ^ 96) 0).

(** The first 32 bits of the fractional part of the square root of [p]. *)
Definition frac_square_root (p : Z) : Z := u32 (Z.sqrt (p * 2 ^ 64)).

(** The round constants: the table [_K] of the package holds these values. *)
Definition _K : list Z := Eval vm_compute in map frac_cube_root primes.

(** The eight chaining words [h0 .. h7]. *)
Record digest := Digest {
  h0 : Z; h1 : Z; h2 : Z; h3 : Z; h4 : Z; h5 : Z; h6 : Z; h7 : Z
}.

(** The initial value: the constants [init0 .. init7] of the package. *)
Definition init : digest :=
  Eval vm_compute in
  match map frac_square_root (firstn 8 primes) with
  | [a; b; c; d; e; f; g; h] => Digest a b c d e f g h
  | _ => Digest 0 0 0 0 0 0 0 0
  end.

(** The sixteen big-endian words of one 64-byte chunk. *)
Fixpoint be_words (p : list Z) : list Z :=
  match p with
  | b0 :: b1 :: b2 :: b3 :: r =>
      Z.lor (Z.lor (Z.lor (Z.shiftl b0 24) (Z.shiftl b1 16)) (Z.shiftl b2 8)) b3
      :: be_words r
  | _ => []
  end.

Definition w_at (w : list Z) (i : nat) : Z := nth i w 0.

(** [w[i]] for [i] from 16 to 63; [w] holds the [i] words before it. *)
Definition schedule_step (w : list Z) : list Z :=
  let i := length w in
  let v1 := w_at w (i - 2) in
  let t1 := Z.lxor (Z.lxor (rotr v1 17) (rotr v1 19)) (Z.shiftr v1 10) in
  let v2 := w_at w (i - 15) in
  let t2 := Z.lxor (Z.lxor (rotr v2 7) (rotr v2 18)) (Z.shiftr v2 3) in
  w ++ [add32 (add32 (add32 t1 (w_at w (i - 7))) t2) (w_at w (i - 16))].

Definition schedule (p : list Z) : list Z :=
  Nat.iter 48 schedule_step (be_words p).

(** One of the 64 rounds on the working variables [a .. h]. *)
Definition round (s : digest) (kw : Z * Z) : digest :=
  let '(Digest a b c d e f g h) := s in
  let t1 :=
    add32 (add32 (add32 (add32 h
      (Z.lxor (Z.lxor (rotr e 6) (rotr e 11)) (rotr e 25)))
      (Z.lxor (Z.land e f) (Z.land (not32 e) g)))
      (fst kw)) (snd kw) in
  let t2 :=
    add32 (Z.lxor (Z.lxor (rotr a 2) (rotr a 13)) (rotr a 22))
          (Z.lxor (Z.lxor (Z.land a b) (Z.land a c)) (Z.land b c)) in
  Digest (add32 t1 t2) a b c (add32 d t1) e f g.

(** [blockGeneric] on a single chunk. *)
Definition block (dig : digest) (p : list Z) : digest :=
  let '(Digest a b c d e f g h) :=
    fold_left round (combine _K (schedule p)) dig in
  Digest (add32 (h0 dig) a) (add32 (h1 dig) b) (add32 (h2 dig) c)
         (add32 (h3 dig) d) (add32 (h4 dig) e) (add32 (h5 dig) f)
         (add32 (h6 dig) g) (add32 (h7 dig) h).

(** The chunks of a padded message. *)
Fixpoint blocks (n : nat) (dig : digest) (p : list Z) : digest :=
  match n with
  | O => dig
  | S n' => blocks n' (block dig (firstn 64 p)) (skipn 64 p)
  end.

(** [n] as [k] big-endian bytes. *)
Fixpoint be_bytes (k : nat) (n : Z) : list Z :=
  match k with
  | O => []
  | S k' => be_bytes k' (Z.shiftr n 8) ++ [Z.land n 0xff]
  end.

(** Padding of [checkSum]: 0x80, zeros up to 56 mod 64, the bit length. *)
Definition pad (msg : list Z) : list Z :=
  let n := Z.of_nat (length msg) in
  let zeros := Z.to_nat ((55 - n) mod 64) in
  msg ++ [0x80] ++ repeat 0 zeros ++ be_bytes 8 (n * 8).

Definition sum (msg : list Z) : list Z :=
  let p := pad msg in
  let '(Digest a b c d e f g h) := blocks (length p / 64) init p in
  be_bytes 4 a ++ be_bytes 4 b ++ be_bytes 4 c ++ be_bytes 4 d ++
  be_bytes 4 e ++ be_bytes 4 f ++ be_bytes 4 g ++ be_bytes 4 h.

End Sha256.

Module Hex.

Definition hextable : string := "0123456789abcdef".

Definition digit (v : Z) : ascii :=
  match String.get (Z.to_nat v) hextable with
  | Some c => c
  | None => "0"%char
  end.

(** [hex.EncodeToString] *)
Fixpoint EncodeToString (src : list Z) : string :=
  match src with
  | [] => EmptyString
  | v :: r =>
      String (digit (Z.shiftr v 4)) (String (digit (Z.land v 0x0f)) (EncodeToString r))
  end.

Definition is_lower_hex (c : ascii) : bool :=
  let n := N_of_ascii c in
  ((48 <=? n) && (n <=? 57) || (97 <=? n) && (n <=? 102))%N.

Fixpoint all_lower_hex (s : string) : bool :=
  match s with
  | EmptyString => true
  | String c r => is_lower_hex c && all_lower_hex r
  end.

End Hex.

(** ** main.go: Link and newLink *)

Record Link := mkLink { Destination : string; Hash : string }.

Definition newLink (destination : string) : Link :=
  let h := Sha256.sum (bytes destination) in
  let hash := Hex.EncodeToString h in
  {| Destination := destination; Hash := hash |}.

(** ** os: the working directory

    The only state of the program is its working directory: a finite map
    from file names to files.  A file carries its permission bits and its
    bytes.  The process owns every file it meets, so only the owner bits
    are consulted; the umask is taken not to mask owner bits. *)

Module Os.

Record file := File { mode : Z; contents : string }.

Inductive Errno := ENOENT | EACCES.

(** [fs.PathError] *)
Record PathError := mkPathError { Op : string; Path : string; Err : Errno }.

Definition errno_text (e : Errno) : string :=
  match e with
  | ENOENT => "no such file or directory"
  | EACCES => "permission denied"
  end.

(** The method [Error] of [PathError] *)
Definition Error (e : PathError) : string :=
  Op e +:+ " " +:+ Path e +:+ ": " +:+ errno_text (Err e).

(** A Go call returning [(T, error)]. *)
Inductive result (A : Type) :=
| Ok (a : A)
| Fail (e : PathError).
Arguments Ok {A} a.
Arguments Fail {A} e.

Definition O_RDONLY : Z := 0x0.
Definition O_WRONLY : Z := 0x1.
Definition O_RDWR : Z := 0x2.
Definition O_CREATE : Z := 0x40.
Definition O_TRUNC : Z := 0x200.
Definition O_APPEND : Z := 0x400.

Definition has (flag bit : Z) : bool := negb (Z.land flag bit =? 0).
Definition wants_read (flag : Z) : bool := negb (Z.land flag 3 =? O_WRONLY).
Definition wants_write (flag : Z) : bool := negb (Z.land flag 3 =? O_RDONLY).

Definition owner_may_read (f : file) : bool := Z.testbit (mode f) 8.
Definition owner_may_write (f : file) : bool := Z.testbit (mode f) 7.

(** An open file: its name and whether writes go to the end. *)
Record handle := Handle { h_name : string; h_append : bool }.

(** [os.OpenFile(name, flag, perm)] *)
Definition OpenFile (name : string) (flag perm : Z) (fs : gmap string file)
  : result handle * gmap string file :=
  match fs !! name with
  | None =>
      if has flag O_CREATE
      then (Ok (Handle name (has flag O_APPEND)), <[name := File perm EmptyString]> fs)
      else (Fail (mkPathError "open" name ENOENT), fs)
  | Some f =>
      if (wants_read flag && negb (owner_may_read f))
         || (wants_write flag && negb (owner_may_write f))
      then (Fail (mkPathError "open" name EACCES), fs)
      else if has flag O_TRUNC
      then (Ok (Handle name (has flag O_APPEND)), <[name := File (mode f) EmptyString]> fs)
      else (Ok (Handle name (has flag O_APPEND)), fs)
  end.

(** [data] laid over [old] from offset 0. *)
Fixpoint overlay (data old : string) : string :=
  match data, old with
  | EmptyString, _ => old
  | String c r, EmptyString => String c r
  | String c r, String _ old' => String c (overlay r old')
  end.

(** The first [Write] on a fresh handle. *)
Definition Write (h : handle) (data : string) (fs : gmap string file)
  : gmap string file :=
  match fs !! h_name h with
  | None => fs
  | Some f =>
      <[h_name h := File (mode f)
           (if h_append h then contents f +:+ data else overlay data (contents f))]> fs
  end.

(** [os.WriteFile(name, data, perm)] *)
Definition WriteFile (name data : string) (perm : Z) (fs : gmap string file)
  : option PathError * gmap string file :=
  match OpenFile name (Z.lor (Z.lor O_WRONLY O_CREATE) O_TRUNC) perm fs with
  | (Fail e, fs') => (Some e, fs')
  | (Ok h, fs') => (None, Write h data fs')
  end.

(** [os.Open(name)] *)
Definition Open (name : string) (fs : gmap string file)
  : result handle * gmap string file :=
  OpenFile name O_RDONLY 0 fs.

(** Everything a reader gets from a fresh handle. *)
Definition read_all (h : handle) (fs : gmap string file) : string :=
  match fs !! h_name h with
  | Some f => contents f
  | None => EmptyString
  end.

(** [os.ReadFile(name)] *)
Definition ReadFile (name : string) (fs : gmap string file) : result string :=
  match Open name fs with
  | (Fail e, _) => Fail e
  | (Ok h, fs') => Ok (read_all h fs')
  end.

End Os.

Import Os.

(** ** bufio.Scanner with the default split function [ScanLines] *)

Module Bufio.

(** [bufio.MaxScanTokenSize]: the buffer never grows beyond it. *)
Definition MaxScanTokenSize : N := 65536.

(** [dropCR] *)
Fixpoint dropCR (s : string) : string :=
  match s with
  | EmptyString => EmptyString
  | String x EmptyString => if Ascii.eqb x CR then EmptyString else s
  | String x r => String x (dropCR r)
  end.

(** [scanner.Scan(); scanner.Text()] on a fresh scanner over [data].

    The first token is the text before the first line feed, less one
    carriage return, when that line feed lies within the buffer; a final
    line without a line feed is a token when the whole file leaves room in
    the buffer for end of file to be seen.  Otherwise [Scan] reports
    [ErrTooLong] or end of file, and [Text] is empty. *)
Definition first_text (data : string) : string :=
  match IndexByte data LF with
  | Some i =>
      if (i <? MaxScanTokenSize)%N then dropCR (slice_to i data) else EmptyString
  | None =>
      if (len data <? MaxScanTokenSize)%N then dropCR data else EmptyString
  end.

End Bufio.

(** ** log.Logger with [log.LstdFlags] *)

Module Log.

(** The local wall clock, as [t.Date()] and [t.Clock()] give it. *)
Record Time := mkTime {
  Year : N; Month : N; Day : N; Hour : N; Minute : N; Second : N
}.

Definition digit (i : N) : ascii := ascii_of_N (48 + i).

(** The loop of [itoa], filling the buffer [b] from its end.  Each turn
    divides [i] by ten or uses up one unit of [wid]; [fuel] bounds the
    turns, and [itoa] hands over more than the loop can take. *)
Fixpoint itoa_loop (fuel : nat) (i : N) (wid : Z) (b : string) : string :=
  match fuel with
  | O => b
  | S k =>
      if (10 <=? i)%N || (1 <? wid)
      then itoa_loop k (i / 10)%N (wid - 1) (String (digit (i mod 10)) b)
      else String (digit i) b
  end.

(** [itoa(buf, i, wid)]: decimal, zero-padded to [wid]. *)
Definition itoa (i : N) (wid : Z) : string :=
  itoa_loop (S (N.to_nat i + Z.to_nat wid)) i wid EmptyString.

(** [formatHeader] for the flags [Ldate | Ltime]. *)
Definition formatHeader (prefix : string) (t : Time) : string :=
  prefix +:+ itoa (Year t) 4 +:+ "/" +:+ itoa (Month t) 2 +:+ "/" +:+ itoa (Day t) 2
  +:+ " " +:+ itoa (Hour t) 2 +:+ ":" +:+ itoa (Minute t) 2 +:+ ":"
  +:+ itoa (Second t) 2 +:+ " ".

Fixpoint ends_with_LF (s : string) : bool :=
  match s with
  | EmptyString => false
  | String x EmptyString => Ascii.eqb x LF
  | String _ r => ends_with_LF r
  end.

(** The bytes the [Output] method of the logger hands to its writer in one [Write]. *)
Definition Output (prefix : string) (now : Time) (s : string) : string :=
  formatHeader prefix now +:+ s +:+
  (if ends_with_LF s then EmptyString else String LF EmptyString).

(** [fmt.Sprintln] of one string. *)
Definition Sprintln (v : string) : string := v +:+ String LF EmptyString.

(** [logger.Println(v)] *)
Definition Println (prefix : string) (now : Time) (v : string) : string :=
  Output prefix now (Sprintln v).

End Log.

Import Log.

(** ** main.go: the record store and the hit log *)

Definition nl : string := String LF EmptyString.

Record LinkAnalytics := mkLinkAnalytics { GoTo : Link; Analytics : string }.

(** The name of the file that holds the link [hash]. *)
Definition filename_of (hash : string) : string := hash +:+ ".linkanalytics".

(** The method [save] of [Link]; the permission is octal 0600. *)
Definition save (l : Link) (fs : gmap string file)
  : option PathError * gmap string file :=
  let filename := filename_of (Hash l) in
  let contents := Destination l +:+ nl in
  WriteFile filename contents 384 fs.

(** [func loadLink(hash string)], giving a [Link] or an error *)
Definition loadLink (hash : string) (fs : gmap string file) : result Link :=
  let filename := filename_of hash in
  match Open filename fs with
  | (Fail err, _) => Fail err
  | (Ok file, fs') =>
      let destination := Bufio.first_text (read_all file fs') in
      Ok {| Destination := destination; Hash := hash |}
  end.

(** [func loadHits(hash string) ([]byte, error)] *)
Definition loadHits (hash : string) (fs : gmap string file) : result string :=
  let filename := filename_of hash in
  match ReadFile filename fs with
  | Fail err => Fail err
  | Ok hits => Ok hits
  end.

(** The line the logger of [gotHit] writes for [ua] at time [now]. *)
Definition hit_line (now : Time) (ua : string) : string :=
  Println "hit: " now ua.

(** [func gotHit(hash string, ua string) error]; the permission argument is
    octal 0644 and [now] is the clock the logger reads.  The logger drops
    the result of its write and [gotHit] returns [nil] once the file is
    open. *)
Definition gotHit (now : Time) (hash ua : string) (fs : gmap string file)
  : option PathError * gmap string file :=
  let filename := filename_of hash in
  match OpenFile filename (Z.lor O_APPEND O_WRONLY) 420 fs with
  | (Fail err, fs') => (Some err, fs')
  | (Ok file, fs') => (None, Write file (hit_line now ua) fs')
  end.

(** ** main.go: the handlers *)

(** What a handler reads of its [http.Request]. *)
Record Request := mkRequest {
  FormValue : string -> string;
  HeaderGet : string -> string
}.

Inductive template_data :=
| OfLink (l : Link)
| OfAnalytics (a : LinkAnalytics).

(** What a handler does to its [http.ResponseWriter]. *)
Inductive response :=
| Redirect (url : string) (code : Z)
| HttpError (msg : string) (code : Z)
| Executed (template : string) (data : template_data)
| Printed (body : string)
| Panic.

Definition StatusFound : Z := 302.
Definition StatusInternalServerError : Z := 500.

(** [http.Error(w, err.Error(), code)]: calling [Error] on a nil [error]
    panics. *)
Definition http_Error (err : option PathError) (code : Z) : response :=
  match err with
  | Some e => HttpError (Error e) code
  | None => Panic
  end.

Definition createHandler (r : Request) (m : string) (fs : gmap string file)
  : response * gmap string file :=
  (Executed "create.html" (OfLink {| Destination := ""; Hash := "" |}), fs).

Definition saveHandler (r : Request) (m : string) (fs : gmap string file)
  : response * gmap string file :=
  let destination := FormValue r "destination" in
  let l := newLink destination in
  match save l fs with
  | (Some err, fs') => (http_Error (Some err) StatusInternalServerError, fs')
  | (None, fs') => (Redirect ("/analytics/" +:+ Hash l) StatusFound, fs')
  end.

(** The template [analytics.html] is not part of the embedding: the handler
    is followed up to the data it hands to [ExecuteTemplate]. *)
Definition analyticsHandler (r : Request) (m : string) (fs : gmap string file)
  : response * gmap string file :=
  match loadLink m fs with
  | Fail err => (http_Error (Some err) StatusInternalServerError, fs)
  | Ok l =>
      match loadHits m fs with
      | Fail err2 => (http_Error None StatusInternalServerError, fs)
      | Ok h =>
          let a := {| GoTo := l; Analytics := h |} in
          (Executed "analytics.html" (OfAnalytics a), fs)
      end
  end.

Definition goHandler (now : Time) (r : Request) (m : string) (fs : gmap string file)
  : response * gmap string file :=
  match loadLink m fs with
  | Fail err => (http_Error (Some err) StatusInternalServerError, fs)
  | Ok l =>
      match gotHit now (Hash l) (HeaderGet r "User-Agent") fs with
      | (Some err2, fs') => (http_Error None StatusInternalServerError, fs')
      | (None, fs') => (Redirect (Destination l) StatusFound, fs')
      end
  end.

Definition collectHandler (now : Time) (r : Request) (m : string) (fs : gmap string file)
  : response * gmap string file :=
  match loadLink m fs with
  | Fail err => (http_Error (Some err) StatusInternalServerError, fs)
  | Ok l =>
      match gotHit now (Hash l) (HeaderGet r "User-Agent") fs with
      | (Some err2, fs') => (http_Error None StatusInternalServerError, fs')
      | (None, fs') => (Printed ("200 OK " +:+ m), fs')
      end
  end.

(** ** The server as a state machine over the directory *)

Inductive call :=
| Create (r : Request) (m : string)
| Save (r : Request) (m : string)
| AnalyticsOf (r : Request) (m : string)
| Go (now : Time) (r : Request) (m : string)
| Collect (now : Time) (r : Request) (m : string).

Definition serve (c : call) (fs : gmap string file) : response * gmap string file :=
  match c with
  | Create r m => createHandler r m fs
  | Save r m => saveHandler r m fs
  | AnalyticsOf r m => analyticsHandler r m fs
  | Go now r m => goHandler now r m fs
  | Collect now r m => collectHandler now r m fs
  end.

(** The directory after a sequence of requests, served one after another. *)
Fixpoint run (cs : list call) (fs : gmap string file) : gmap string file :=
  match cs with
  | [] => fs
  | c :: cs' => run cs' (serve c fs).2
  end.

(** The directories the server can produce, starting in an empty one. *)
Definition reachable (fs : gmap string file) : Prop :=
  exists cs, fs = run cs ∅.

(** The destinations whose registration went through, latest first. *)
Fixpoint registered (cs : list call) (fs : gmap string file) (acc : list string)
  : list string :=
  match cs with
  | [] => acc
  | c :: cs' =>
      let acc' :=
        match c, (serve c fs).1 with
        | Save r _, Redirect _ _ => FormValue r "destination" :: acc
        | _, _ => acc
        end in
      registered cs' (serve c fs).2 acc'
  end.

(** ** Reading a storage unit line by line *)

(** One hit record: the line of [hit_line] without its terminator. *)
Definition hit_record (ev : Time * string) : string :=
  formatHeader "hit: " ev.1 +:+ ev.2.

(** The bytes a sequence of hits adds to a storage unit. *)
Fixpoint hit_bytes (evs : list (Time * string)) : string :=
  match evs with
  | [] => EmptyString
  | ev :: r => hit_line ev.1 ev.2 +:+ hit_bytes r
  end.

(** The first line of a storage unit. *)
Definition destination_line (raw : string) : option string := head (lines raw).

(** The hit records of a storage unit: every line after the first. *)
Definition hit_records (raw : string) : list string := tail (lines raw).

(** [b] is a byte. *)
Definition is_byte (b : Z) : Prop := 0 <= b < 256.

(** The unit of an identifier is missing, or the server may read and
    write it. *)
Definition accessible (hash : string) (fs : gmap string file) : Prop :=
  match fs !! filename_of hash with
  | None => True
  | Some f => owner_may_read f = true /\ owner_may_write f = true
  end.

(** ** Visits, seen as hits *)

Definition is_visit_of (h : string) (c : call) : Prop :=
  match c with
  | Go _ _ m | Collect _ _ m => m = h
  | _ => False
  end.

(** The hit a visit records: the clock and the [User-Agent] header. *)
Definition event_of (c : call) : option (Time * string) :=
  match c with
  | Go now r _ | Collect now r _ => Some (now, HeaderGet r "User-Agent")
  | _ => None
  end.

Definition events_of (cs : list call) : list (Time * string) := omap event_of cs.

(** ** The layout of the directory *)

(** A file of the directory is the unit of a registered destination: it is
    named after the destination's identifier, carries mode 0600, and holds
    the destination, a line feed, and hit lines. *)
Definition unit_of (regs : list string) (name : string) (f : file) : Prop :=
  mode f = 384 /\
  exists d evs,
    d ∈ regs /\
    name = filename_of (Hash (newLink d)) /\
    contents f = d +:+ nl +:+ hit_bytes evs.

Definition layout (regs : list string) (fs : gmap string file) : Prop :=
  (forall d, d ∈ regs -> is_Some (fs !! filename_of (Hash (newLink d)))) /\
  (forall name f, fs !! name = Some f -> unit_of regs name f).

(** ** main.go: routing *)

(** A byte of the class of ASCII letters and digits. *)
Definition is_alnum (c : ascii) : bool :=
  let n := N_of_ascii c in
  ((97 <=? n) && (n <=? 122) || (65 <=? n) && (n <=? 90) || (48 <=? n) && (n <=? 57))%N.

Fixpoint all_alnum (s : string) : bool :=
  match s with
  | EmptyString => true
  | String c r => is_alnum c && all_alnum r
  end.

(** [strings.CutPrefix(s, p)]: what follows the prefix [p] of [s]. *)
Fixpoint cut_prefix (p s : string) : option string :=
  match p, s with
  | EmptyString, _ => Some s
  | String a p', String b s' => if Ascii.eqb a b then cut_prefix p' s' else None
  | String _ _, EmptyString => None
  end.

(** The alternatives of the first group of the pattern, in its order. *)
Definition keywords : list string := ["create"; "save"; "analytics"; "go"; "collect"].

(** The pattern after its leading slash: an alternative, a slash, and
    letters and digits up to the end of the text.  Alternatives are tried
    from left to right. *)
Fixpoint match_keyword (kws : list string) (s : string) : option (string * string) :=
  match kws with
  | [] => None
  | kw :: kws' =>
      match cut_prefix (kw +:+ "/") s with
      | Some rest => if all_alnum rest then Some (kw, rest) else match_keyword kws' s
      | None => match_keyword kws' s
      end
  end.

(** [func validPathComponent(path string) []string]: the submatches of the
    pattern (start of text, a slash, one of create, save, analytics, go and
    collect, a slash, any number of ASCII letters and digits, end of text);
    [None] for [nil]. *)
Definition validPathComponent (path : string) : option (list string) :=
  match cut_prefix "/" path with
  | Some s =>
      match match_keyword keywords s with
      | Some (kw, rest) => Some [path; kw; rest]
      | None => None
      end
  | None => None
  end.

Definition StatusNotFound : Z := 404.

(** [http.NotFound(w, r)] *)
Definition http_NotFound : response := HttpError "404 page not found" StatusNotFound.

(** [func wrapHandler(fn)]: the handler it returns, applied to a request
    whose [URL.Path] is [path].  Indexing a slice out of range panics. *)
Definition wrapHandler
    (fn : Request -> string -> gmap string file -> response * gmap string file)
    (path : string) (r : Request) (fs : gmap string file)
  : response * gmap string file :=
  match validPathComponent path with
  | None => (http_NotFound, fs)
  | Some m =>
      match m !! 2%nat with
      | Some component => fn r component fs
      | None => (Panic, fs)
      end
  end.

(** The patterns [main] registers with [http.HandleFunc], each with the
    request its wrapped handler serves for a path component. *)
Definition routes : list (string * (Time -> Request -> string -> call)) :=
  [ ("/create/", fun _ => Create);
    ("/save/", fun _ => Save);
    ("/analytics/", fun _ => AnalyticsOf);
    ("/go/", Go);
    ("/collect/", Collect) ].

(** [s[n:]] (empty when [s] is shorter). *)
Fixpoint slice_from (n : N) (s : string) : string :=
  match s with
  | EmptyString => EmptyString
  | String x r => if (n =? 0)%N then s else slice_from (N.pred n) r
  end.

(** A clock reading whose date has a year of at most four digits. *)
Definition four_digit_year (t : Time) : Prop :=
  (Year t < 10000 /\ Month t < 100 /\ Day t < 100 /\
   Hour t < 100 /\ Minute t < 100 /\ Second t < 100)%N.


(** The identifier whose unit a request may write. *)
Definition target_of (c : call) : option string :=
  match c with
  | Save r _ => Some (Hash (newLink (FormValue r "destination")))
  | Go _ _ m | Collect _ _ m => Some m
  | Create _ _ | AnalyticsOf _ _ => None
  end.

(** The value of a hexadecimal digit of [Hex.hextable] (0 for any other
    byte): the inverse of [Hex.digit]. *)
Definition hex_value (c : ascii) : Z :=
  let n := Z.of_N (N_of_ascii c) in
  if (48 <=? n) && (n <=? 57) then n - 48
  else if (97 <=? n) && (n <=? 102) then n - 87
  else 0.

(** The bytes a string of hexadecimal digit pairs stands for: the inverse
    of [Hex.EncodeToString]. *)
Fixpoint hex_bytes (s : string) : list Z :=
  match s with
  | String hi (String lo r) => (16 * hex_value hi + hex_value lo) :: hex_bytes r
  | _ => []
  end.

(** ** Sample inputs for the concrete instances below *)

Definition sample_time : Time := mkTime 2024 3 7 9 5 1.

(** A request whose form field and user agent are as given. *)
Definition request_of (destination ua : string) : Request :=
  {| FormValue := fun key => if String.eqb key "destination" then destination else "";
     HeaderGet := fun key => if String.eqb key "User-Agent" then ua else "" |}.

Definition two_lines : string := String "a" (String LF "b").

(** A destination of 65536 bytes. *)
Definition long_destination : string := N.iter 65536 (String "a") EmptyString.

(** * Properties *)

(** ** Known answers of the digest *)

Example _K_ends : nth 0 Sha256._K 0 = 0x428a2f98 /\ nth 63 Sha256._K 0 = 0xc67178f2.
Proof. split; reflexivity. Qed.

Example init_ends : Sha256.h0 Sha256.init = 0x6a09e667 /\ Sha256.h7 Sha256.init = 0x5be0cd19.
Proof. split; reflexivity. Qed.

Example newLink_empty :
  Hash (newLink "") = "e3b0c44298fc1c149afbf4c8996fb92427ae41e4649b934ca495991b7852b855".
Proof. vm_compute. reflexivity. Qed.

Example newLink_abc :
  Hash (newLink "abc") = "ba7816bf8f01cfea414140de5dae2223b00361a396177a9cb410ff61f20015ad".
Proof. vm_compute. reflexivity. Qed.

Example newLink_two_blocks :
  Hash (newLink "abcdbcdecdefdefgefghfghighijhijkijkljklmklmnlmnomnopnopq")
  = "248d6a61d20638b8e5c026930c3e6039a33ce45964ff2167f6ecedd419db06c1".
Proof. vm_compute. reflexivity. Qed.


(** ** Strings *)

#[local] Arguments String.append : simpl nomatch.
#[local] Arguments hit_line : simpl never.
#[local] Arguments hit_record : simpl never.
#[local] Arguments formatHeader : simpl never.
#[local] Arguments itoa : simpl never.
#[local] Arguments newLink : simpl never.
#[local] Arguments filename_of : simpl never.

Section StringFacts.

Lemma append_assoc (a b c : string) : (a +:+ b) +:+ c = a +:+ b +:+ c.
Proof. induction a as [|x a IH]; simpl; [reflexivity | f_equal; exact IH]. Qed.

Lemma append_empty_r (a : string) : a +:+ EmptyString = a.
Proof. induction a as [|x a IH]; simpl; [reflexivity | f_equal; exact IH]. Qed.

Lemma len_append (a b : string) : len (a +:+ b) = (len a + len b)%N.
Proof. induction a as [|x a IH]; simpl; [reflexivity | rewrite IH; lia]. Qed.

Lemma one_line_cons (x : ascii) (s : string) :
  one_line (String x s) <-> x <> LF /\ one_line s.
Proof.
  unfold one_line. simpl. destruct (Ascii.eqb_spec x LF) as [->|Hne].
  - split; [discriminate | intros [H _]; now destruct H].
  - destruct (IndexByte s LF); split; try discriminate; try tauto.
    intros [_ H]; discriminate.
Qed.

Lemma one_line_empty : one_line EmptyString.
Proof. reflexivity. Qed.

Lemma one_line_append (a b : string) :
  one_line a -> one_line b -> one_line (a +:+ b).
Proof.
  induction a as [|x a IH]; simpl; intros Ha Hb; [exact Hb|].
  apply one_line_cons in Ha as [Hx Ha]. apply one_line_cons. auto.
Qed.

Lemma IndexByte_first_LF (d rest : string) :
  one_line d -> IndexByte (d +:+ String LF rest) LF = Some (len d).
Proof.
  induction d as [|x d IH]; intros Hd; simpl.
  - reflexivity.
  - apply one_line_cons in Hd as [Hx Hd].
    destruct (Ascii.eqb_spec x LF) as [E|_]; [contradiction|].
    now rewrite (IH Hd).
Qed.

Lemma slice_to_len (d rest : string) : slice_to (len d) (d +:+ rest) = d.
Proof.
  induction d as [|x d IH]; simpl.
  - destruct rest; reflexivity.
  - destruct (N.eqb_spec (N.succ (len d)) 0) as [E|_]; [lia|].
    now rewrite N.pred_succ, IH.
Qed.

Lemma lines_first (d rest : string) :
  one_line d -> lines (d +:+ String LF rest) = d :: lines rest.
Proof.
  induction d as [|x d IH]; intros Hd; simpl.
  - reflexivity.
  - apply one_line_cons in Hd as [Hx Hd].
    destruct (Ascii.eqb_spec x LF) as [E|_]; [contradiction|].
    now rewrite (IH Hd).
Qed.

Lemma lines_one (d : string) :
  one_line d -> lines (d +:+ nl) = [d].
Proof. intros Hd. unfold nl. now rewrite lines_first. Qed.

(** Text that is empty or ends in a line feed splits where it ends. *)
Lemma lines_append_terminated (a b : string) :
  a = EmptyString \/ ends_with_LF a = true ->
  lines (a +:+ b) = lines a ++ lines b.
Proof.
  induction a as [|x a IH]; intros Ha; simpl; [reflexivity|].
  destruct Ha as [Ha|Ha]; [discriminate|].
  assert (Hrec : lines (a +:+ b) = lines a ++ lines b).
  { apply IH. destruct a as [|y a']; [now left | right; exact Ha]. }
  rewrite Hrec. destruct (Ascii.eqb x LF) eqn:Ex; [reflexivity|].
  destruct a as [|y a'].
  - simpl in Ha. congruence.
  - destruct (lines (String y a')) as [|l ls] eqn:El; [|reflexivity].
    exfalso. simpl in El. destruct (Ascii.eqb y LF); [discriminate|].
    destruct (lines a'); discriminate.
Qed.

Lemma ends_with_LF_append_nl (a : string) : ends_with_LF (a +:+ nl) = true.
Proof.
  induction a as [|x a IH]; [reflexivity|].
  simpl. destruct (a +:+ nl) eqn:E; [|exact IH].
  destruct a; discriminate.
Qed.

Lemma dropCR_no_CR (s : string) : ends_with_CR s = false -> Bufio.dropCR s = s.
Proof.
  induction s as [|x s IH]; [reflexivity|].
  simpl. destruct s as [|y s'].
  - now intros ->.
  - intros H. now rewrite (IH H).
Qed.

Lemma prefix_refl (s : string) : String.prefix s s = true.
Proof.
  induction s as [|x s IH]; [reflexivity|].
  simpl. destruct (ascii_dec x x); [exact IH | congruence].
Qed.

Lemma Contains_suffix (a b : string) : Contains (a +:+ b) b = true.
Proof.
  induction a as [|x a IH].
  - change (EmptyString +:+ b) with b.
    destruct b as [|y b]; [reflexivity|].
    unfold Contains; fold Contains. now rewrite prefix_refl.
  - change (String x a +:+ b) with (String x (a +:+ b)).
    unfold Contains; fold Contains. rewrite IH. apply orb_true_r.
Qed.

End StringFacts.

(** ** The digest and its hexadecimal form *)

Section DigestFacts.

Lemma land_low_bits (n : Z) (k : Z) : 0 <= k -> 0 <= Z.land n (Z.ones k) < 2 ^ k.
Proof. intros Hk. rewrite Z.land_ones by exact Hk. apply Z.mod_pos_bound. lia. Qed.


Lemma be_bytes_range (k : nat) (n : Z) : Forall is_byte (Sha256.be_bytes k n).
Proof.
  revert n. induction k as [|k IH]; intros n; simpl; [constructor|].
  apply Forall_app. split; [apply IH|].
  constructor; [|constructor].
  change 0xff with (Z.ones 8). apply (land_low_bits n 8). lia.
Qed.


Lemma sum_range (msg : list Z) : Forall is_byte (Sha256.sum msg).
Proof.
  unfold Sha256.sum.
  destruct (Sha256.blocks _ _ _) as [a b c d e f g h].
  do 7 (apply Forall_app_2; [apply be_bytes_range|]). apply be_bytes_range.
Qed.


Lemma digit_lower_hex (v : Z) : 0 <= v < 16 -> Hex.is_lower_hex (Hex.digit v) = true.
Proof.
  intros Hv.
  assert (Hcases : v = 0 \/ v = 1 \/ v = 2 \/ v = 3 \/ v = 4 \/ v = 5 \/ v = 6 \/ v = 7 \/
                   v = 8 \/ v = 9 \/ v = 10 \/ v = 11 \/ v = 12 \/ v = 13 \/ v = 14 \/ v = 15)
    by lia.
  repeat (destruct Hcases as [->|Hcases]; [reflexivity|]). subst v. reflexivity.
Qed.

Lemma EncodeToString_lower_hex (src : list Z) :
  Forall is_byte src -> Hex.all_lower_hex (Hex.EncodeToString src) = true.
Proof.
  induction 1 as [|v r Hv Hr IH]; [reflexivity|].
  unfold is_byte in Hv.
  cbn [Hex.EncodeToString Hex.all_lower_hex]. rewrite IH.
  rewrite !digit_lower_hex; [reflexivity | |].
  - change 0x0f with (Z.ones 4). apply (land_low_bits v 4). lia.
  - rewrite Z.shiftr_div_pow2 by lia. change (2 ^ 4) with 16.
    split; [apply Z.div_pos; lia | apply Z.div_lt_upper_bound; lia].
Qed.

End DigestFacts.

(** ** The header the logger writes *)

Section LoggerFacts.

Lemma digit_not_LF (i : N) : (i < 10)%N -> digit i <> LF.
Proof.
  intros Hi E. unfold digit, LF in E.
  apply (f_equal N_of_ascii) in E.
  rewrite !N_ascii_embedding in E by lia. lia.
Qed.

Lemma itoa_loop_one_line (fuel : nat) (i : N) (wid : Z) (b : string) :
  one_line b -> one_line (itoa_loop fuel i wid b).
Proof.
  revert i wid b. induction fuel as [|k IH]; intros i wid b Hb; simpl; [exact Hb|].
  destruct ((10 <=? i)%N || (1 <? wid)) eqn:Hc.
  - apply IH. apply one_line_cons. split; [|exact Hb].
    apply digit_not_LF. apply N.mod_upper_bound. lia.
  - apply orb_false_iff in Hc as [Hi _]. apply N.leb_gt in Hi.
    apply one_line_cons. split; [now apply digit_not_LF | exact Hb].
Qed.

(** The fuel [itoa] hands to its loop is never used up: more of it gives
    the same digits. *)
Lemma itoa_loop_fuel (fuel extra : nat) (i : N) (wid : Z) (b : string) :
  (N.to_nat i + Z.to_nat wid < fuel)%nat ->
  itoa_loop (fuel + extra) i wid b = itoa_loop fuel i wid b.
Proof.
  revert i wid b. induction fuel as [|k IH]; intros i wid b Hlt; [lia|].
  simpl. destruct ((10 <=? i)%N || (1 <? wid)) eqn:Hc; [|reflexivity].
  apply IH. apply orb_true_iff in Hc.
  assert (Hq : (i / 10 <= i)%N) by (apply N.Div0.div_le_upper_bound; lia).
  destruct Hc as [Hi|Hw].
  - apply N.leb_le in Hi.
    assert (i / 10 < i)%N by (apply N.div_lt; lia). lia.
  - apply Z.ltb_lt in Hw. lia.
Qed.

Lemma itoa_fuel_enough (extra : nat) (i : N) (wid : Z) :
  itoa_loop (S (N.to_nat i + Z.to_nat wid) + extra) i wid EmptyString = itoa i wid.
Proof. unfold itoa. apply itoa_loop_fuel. lia. Qed.

Example itoa_pads : itoa 7 2 = "07" /\ itoa 2024 4 = "2024" /\ itoa 12345 4 = "12345".
Proof. repeat split. Qed.

Example hit_line_sample :
  hit_line sample_time "curl/8" = "hit: 2024/03/07 09:05:01 curl/8" +:+ nl.
Proof. reflexivity. Qed.

Lemma itoa_one_line (i : N) (wid : Z) : one_line (itoa i wid).
Proof. apply itoa_loop_one_line, one_line_empty. Qed.

Lemma formatHeader_one_line (prefix : string) (t : Time) :
  one_line prefix -> one_line (formatHeader prefix t).
Proof.
  intros Hp. unfold formatHeader.
  repeat (apply one_line_append; [first [exact Hp | apply itoa_one_line | reflexivity]|]).
  reflexivity.
Qed.

Lemma hit_line_record (now : Time) (ua : string) :
  hit_line now ua = hit_record (now, ua) +:+ nl.
Proof.
  unfold hit_line, Println, Output, Sprintln, hit_record. fold nl. simpl fst; simpl snd.
  rewrite ends_with_LF_append_nl, append_empty_r. now rewrite append_assoc.
Qed.

Lemma hit_record_one_line (ev : Time * string) :
  one_line ev.2 -> one_line (hit_record ev).
Proof.
  intros Hua. unfold hit_record.
  apply one_line_append; [apply formatHeader_one_line; reflexivity | exact Hua].
Qed.

Lemma hit_bytes_cons (ev : Time * string) (evs : list (Time * string)) :
  hit_bytes (ev :: evs) = hit_line ev.1 ev.2 +:+ hit_bytes evs.
Proof. reflexivity. Qed.

Lemma hit_bytes_app (evs evs' : list (Time * string)) :
  hit_bytes (evs ++ evs') = hit_bytes evs +:+ hit_bytes evs'.
Proof.
  induction evs as [|ev evs IH]; [reflexivity|].
  change ((ev :: evs) ++ evs') with (ev :: (evs ++ evs')).
  now rewrite !hit_bytes_cons, IH, append_assoc.
Qed.

Lemma lines_hit_bytes (evs : list (Time * string)) :
  Forall (fun ev => one_line ev.2) evs ->
  lines (hit_bytes evs) = map hit_record evs.
Proof.
  induction 1 as [|ev evs Hev Hevs IH]; [reflexivity|].
  rewrite hit_bytes_cons, hit_line_record, append_assoc. unfold nl.
  change (String LF EmptyString +:+ hit_bytes evs) with (String LF (hit_bytes evs)).
  rewrite lines_first by now apply hit_record_one_line.
  rewrite IH. now destruct ev.
Qed.

(** A storage unit made of a destination line and hit lines, read back
    line by line. *)
Lemma lines_unit (d : string) (evs : list (Time * string)) :
  one_line d -> Forall (fun ev => one_line ev.2) evs ->
  lines (d +:+ nl +:+ hit_bytes evs) = d :: map hit_record evs.
Proof.
  intros Hd Hevs. unfold nl.
  change (String LF EmptyString +:+ hit_bytes evs) with (String LF (hit_bytes evs)).
  rewrite lines_first by exact Hd. now rewrite lines_hit_bytes.
Qed.

End LoggerFacts.

(** ** The three file operations of main.go, case by case *)

Section StoreFacts.

Implicit Types (fs : gmap string file) (f : file).

Lemma overlay_fresh (data : string) : overlay data EmptyString = data.
Proof. destruct data; reflexivity. Qed.

Lemma save_cases (l : Link) fs :
  save l fs =
  match fs !! filename_of (Hash l) with
  | None =>
      (None, <[filename_of (Hash l) := File 384 (Destination l +:+ nl)]> fs)
  | Some f =>
      if owner_may_write f
      then (None, <[filename_of (Hash l) := File (mode f) (Destination l +:+ nl)]> fs)
      else (Some (mkPathError "open" (filename_of (Hash l)) EACCES), fs)
  end.
Proof.
  unfold save, WriteFile, OpenFile.
  change (has (Z.lor (Z.lor O_WRONLY O_CREATE) O_TRUNC) O_CREATE) with true.
  change (has (Z.lor (Z.lor O_WRONLY O_CREATE) O_TRUNC) O_TRUNC) with true.
  change (has (Z.lor (Z.lor O_WRONLY O_CREATE) O_TRUNC) O_APPEND) with false.
  change (wants_read (Z.lor (Z.lor O_WRONLY O_CREATE) O_TRUNC)) with false.
  change (wants_write (Z.lor (Z.lor O_WRONLY O_CREATE) O_TRUNC)) with true.
  destruct (fs !! filename_of (Hash l)) as [f|] eqn:Hf; cbn [andb orb].
  - destruct (owner_may_write f); cbn [negb]; [|reflexivity].
    unfold Write. cbn [h_name h_append]. rewrite lookup_insert_eq.
    cbn [mode contents]. now rewrite overlay_fresh, insert_insert_eq.
  - unfold Write. cbn [h_name h_append]. rewrite lookup_insert_eq.
    cbn [mode contents]. now rewrite overlay_fresh, insert_insert_eq.
Qed.

Lemma gotHit_cases (now : Time) (hash ua : string) fs :
  gotHit now hash ua fs =
  match fs !! filename_of hash with
  | None => (Some (mkPathError "open" (filename_of hash) ENOENT), fs)
  | Some f =>
      if owner_may_write f
      then (None, <[filename_of hash := File (mode f) (contents f +:+ hit_line now ua)]> fs)
      else (Some (mkPathError "open" (filename_of hash) EACCES), fs)
  end.
Proof.
  unfold gotHit, OpenFile.
  change (has (Z.lor O_APPEND O_WRONLY) O_CREATE) with false.
  change (has (Z.lor O_APPEND O_WRONLY) O_TRUNC) with false.
  change (has (Z.lor O_APPEND O_WRONLY) O_APPEND) with true.
  change (wants_read (Z.lor O_APPEND O_WRONLY)) with false.
  change (wants_write (Z.lor O_APPEND O_WRONLY)) with true.
  destruct (fs !! filename_of hash) as [f|] eqn:Hf; cbn [andb orb]; [|reflexivity].
  destruct (owner_may_write f); cbn [negb]; [|reflexivity].
  unfold Write. cbn [h_name h_append]. now rewrite Hf.
Qed.

Lemma Open_cases (name : string) fs :
  Open name fs =
  match fs !! name with
  | None => (Fail (mkPathError "open" name ENOENT), fs)
  | Some f =>
      if owner_may_read f
      then (Ok (Handle name false), fs)
      else (Fail (mkPathError "open" name EACCES), fs)
  end.
Proof.
  unfold Open, OpenFile.
  change (has O_RDONLY O_CREATE) with false.
  change (has O_RDONLY O_TRUNC) with false.
  change (has O_RDONLY O_APPEND) with false.
  change (wants_read O_RDONLY) with true.
  change (wants_write O_RDONLY) with false.
  destruct (fs !! name) as [f|]; cbn [andb orb]; [|reflexivity].
  rewrite orb_false_r. now destruct (owner_may_read f).
Qed.

Lemma loadLink_cases (hash : string) fs :
  loadLink hash fs =
  match fs !! filename_of hash with
  | None => Fail (mkPathError "open" (filename_of hash) ENOENT)
  | Some f =>
      if owner_may_read f
      then Ok {| Destination := Bufio.first_text (contents f); Hash := hash |}
      else Fail (mkPathError "open" (filename_of hash) EACCES)
  end.
Proof.
  unfold loadLink. rewrite Open_cases.
  destruct (fs !! filename_of hash) as [f|] eqn:Hf; [|reflexivity].
  destruct (owner_may_read f); [|reflexivity].
  unfold read_all. cbn [h_name]. now rewrite Hf.
Qed.

Lemma loadHits_cases (hash : string) fs :
  loadHits hash fs =
  match fs !! filename_of hash with
  | None => Fail (mkPathError "open" (filename_of hash) ENOENT)
  | Some f =>
      if owner_may_read f
      then Ok (contents f)
      else Fail (mkPathError "open" (filename_of hash) EACCES)
  end.
Proof.
  unfold loadHits, ReadFile. rewrite Open_cases.
  destruct (fs !! filename_of hash) as [f|] eqn:Hf; [|reflexivity].
  destruct (owner_may_read f); [|reflexivity].
  unfold read_all. cbn [h_name]. now rewrite Hf.
Qed.

Example first_text_drops_CR :
  Bufio.first_text (String "a" (String CR (String LF "b"))) = "a".
Proof. reflexivity. Qed.

(** What the scanner of [loadLink] reads from a unit that starts with a
    destination line. *)
Lemma first_text_unit (d rest : string) :
  one_line d -> (len d < Bufio.MaxScanTokenSize)%N ->
  Bufio.first_text (d +:+ nl +:+ rest) = Bufio.dropCR d.
Proof.
  intros Hd Hlen. unfold Bufio.first_text, nl.
  change (String LF EmptyString +:+ rest) with (String LF rest).
  rewrite IndexByte_first_LF by exact Hd.
  apply N.ltb_lt in Hlen. rewrite Hlen. now rewrite slice_to_len.
Qed.

Lemma accessible_empty (hash : string) : accessible hash ∅.
Proof. unfold accessible. now rewrite lookup_empty. Qed.

(** A registration that goes through leaves the unit holding the
    destination line alone, readable and writable as it was or as 0600
    makes it. *)
Lemma save_accessible (l : Link) fs :
  accessible (Hash l) fs ->
  exists md,
    Z.testbit md 8 = true /\ Z.testbit md 7 = true /\
    save l fs = (None, <[filename_of (Hash l) := File md (Destination l +:+ nl)]> fs).
Proof.
  unfold accessible. rewrite save_cases.
  destruct (fs !! filename_of (Hash l)) as [f|].
  - intros [Hr Hw]. rewrite Hw. exists (mode f). auto.
  - intros _. exists 384. auto.
Qed.

End StoreFacts.

(** ** The identifier deriver *)



(** ** Unknown identifiers *)



(** ** The hit log *)

(** C7: when the storage unit of an identifier is missing, or the server
    may not write it, [gotHit] returns an error and the directory is
    exactly what it was; a missing unit stays missing, since the file is
    opened without [O_CREATE]. *)
Theorem gotHit_failure_changes_nothing
    (now : Time) (hash ua : string) (fs : gmap string file)
    (Hcannot : fs !! filename_of hash = None \/
               exists f, fs !! filename_of hash = Some f /\ owner_may_write f = false) :
  exists err,
    gotHit now hash ua fs = (Some err, fs) /\
    Path err = filename_of hash /\
    (fs !! filename_of hash = None ->
     Err err = ENOENT /\ (gotHit now hash ua fs).2 !! filename_of hash = None).
Proof.
  rewrite gotHit_cases.
  destruct Hcannot as [Hnone | (f & Hf & Hw)].
  - rewrite Hnone. eexists. repeat split; reflexivity || assumption.
  - rewrite Hf, Hw. eexists. repeat split; try reflexivity; congruence.
Qed.

Lemma gotHit_failure_changes_nothing_witness :
  ((∅ : gmap string file) !! filename_of "abc123" = None \/
   exists f, (∅ : gmap string file) !! filename_of "abc123" = Some f /\
             owner_may_write f = false) /\
  exists err, gotHit sample_time "abc123" "curl/8" ∅ = (Some err, ∅) /\
    Path err = filename_of "abc123" /\
    ((∅ : gmap string file) !! filename_of "abc123" = None ->
     Err err = ENOENT /\
     (gotHit sample_time "abc123" "curl/8" ∅).2 !! filename_of "abc123" = None).
Proof.
  split; [left; apply lookup_empty|].
  apply (gotHit_failure_changes_nothing sample_time "abc123" "curl/8" ∅).
  left; apply lookup_empty.
Defined.

(** C5 as stated fails for a client signature that holds a line feed: the
    append then adds two lines, not one. *)
Lemma gotHit_two_lines_counterexample :
  let fs := (saveHandler (request_of "d" "") "" ∅).2 in
  let h := Hash (newLink "d") in
  exists f f',
    fs !! filename_of h = Some f /\
    gotHit sample_time h two_lines fs = (None, <[filename_of h := f']> fs) /\
    lines (contents f) = ["d"] /\
    lines (contents f') = ["d"; "hit: 2024/03/07 09:05:01 a"; "b"].
Proof.
  intros fs h.
  assert (Hfs : fs = {[ filename_of h := File 384 ("d" +:+ nl) ]}).
  { unfold fs, saveHandler. rewrite save_cases, lookup_empty. reflexivity. }
  exists (File 384 ("d" +:+ nl)), (File 384 (("d" +:+ nl) +:+ hit_line sample_time two_lines)).
  rewrite gotHit_cases, Hfs, lookup_singleton_eq.
  repeat split; vm_compute; reflexivity.
Qed.

(** C5 (amended): a successful [gotHit] keeps every byte of the unit in
    place and appends exactly [hit: <timestamp> <client signature>] and a
    line feed; no other file changes.  The record ends with the client
    signature, and when the signature holds no line feed the appended bytes
    are one line, the last line of a unit whose earlier content was empty or
    ended with a line feed. *)
Theorem gotHit_appends_one_record
    (now : Time) (hash ua : string) (fs fs' : gmap string file)
    (Hok : gotHit now hash ua fs = (None, fs')) :
  exists f,
    fs !! filename_of hash = Some f /\
    fs' = <[filename_of hash :=
              File (mode f) (contents f +:+ hit_record (now, ua) +:+ nl)]> fs /\
    (forall name, name <> filename_of hash -> fs' !! name = fs !! name) /\
    hit_record (now, ua) = formatHeader "hit: " now +:+ ua /\
    Contains (hit_record (now, ua)) ua = true /\
    (one_line ua ->
     lines (hit_record (now, ua) +:+ nl) = [hit_record (now, ua)] /\
     (contents f = EmptyString \/ ends_with_LF (contents f) = true ->
      lines (contents f +:+ hit_record (now, ua) +:+ nl)
      = lines (contents f) ++ [hit_record (now, ua)])).
Proof.
  rewrite gotHit_cases in Hok.
  destruct (fs !! filename_of hash) as [f|] eqn:Hf; [|discriminate].
  destruct (owner_may_write f); [|discriminate].
  injection Hok as <-. exists f. rewrite hit_line_record.
  split; [reflexivity|]. split; [reflexivity|].
  split; [intros name Hne; now rewrite lookup_insert_ne|].
  split; [reflexivity|].
  split; [apply Contains_suffix|].
  intros Hua.
  assert (Hone : lines (hit_record (now, ua) +:+ nl) = [hit_record (now, ua)])
    by (apply lines_one, hit_record_one_line, Hua).
  split; [exact Hone|].
  intros Hterm. now rewrite lines_append_terminated, Hone.
Qed.

Lemma gotHit_appends_one_record_witness :
  let h := Hash (newLink "d") in
  let fs : gmap string file := {[ filename_of h := File 384 ("d" +:+ nl) ]} in
  let fs' : gmap string file :=
    {[ filename_of h := File 384 (("d" +:+ nl) +:+ hit_line sample_time "curl/8") ]} in
  gotHit sample_time h "curl/8" fs = (None, fs') /\
  exists f,
    fs !! filename_of h = Some f /\
    fs' = <[filename_of h :=
              File (mode f) (contents f +:+ hit_record (sample_time, "curl/8") +:+ nl)]> fs /\
    (forall name, name <> filename_of h -> fs' !! name = fs !! name) /\
    hit_record (sample_time, "curl/8") = formatHeader "hit: " sample_time +:+ "curl/8" /\
    Contains (hit_record (sample_time, "curl/8")) "curl/8" = true /\
    (one_line "curl/8" ->
     lines (hit_record (sample_time, "curl/8") +:+ nl) = [hit_record (sample_time, "curl/8")] /\
     (contents f = EmptyString \/ ends_with_LF (contents f) = true ->
      lines (contents f +:+ hit_record (sample_time, "curl/8") +:+ nl)
      = lines (contents f) ++ [hit_record (sample_time, "curl/8")])).
Proof.
  intros h fs fs'.
  assert (Hrun : gotHit sample_time h "curl/8" fs = (None, fs')).
  { unfold fs, fs'. rewrite gotHit_cases, lookup_singleton_eq.
    cbn [owner_may_write mode contents].
    change (Z.testbit 384 7) with true. cbv iota.
    now rewrite insert_singleton_eq. }
  split; [exact Hrun|].
  exact (gotHit_appends_one_record sample_time h "curl/8" fs fs' Hrun).
Defined.

(** ** Registration *)

Lemma saveHandler_accessible (r : Request) (m : string) (fs : gmap string file) :
  let d := FormValue r "destination" in
  let h := Hash (newLink d) in
  accessible h fs ->
  exists md,
    Z.testbit md 8 = true /\ Z.testbit md 7 = true /\
    saveHandler r m fs
    = (Redirect ("/analytics/" +:+ h) StatusFound, <[filename_of h := File md (d +:+ nl)]> fs).
Proof.
  intros d h Hacc.
  destruct (save_accessible (newLink d) fs Hacc) as (md & H8 & H7 & Hsave).
  exists md. split; [exact H8|]. split; [exact H7|].
  unfold saveHandler. fold d. now rewrite Hsave.
Qed.

(** C1 as stated fails: registering a destination again empties the hit
    history its unit held. *)
Lemma save_again_discards_hits_counterexample :
  let d := "https://example.com/a" in
  let h := Hash (newLink d) in
  let fs := run [Save (request_of d "") ""; Go sample_time (request_of "" "curl/8") h] ∅ in
  fs !! filename_of h
  = Some (File 384 (d +:+ nl +:+ hit_line sample_time "curl/8")) /\
  (saveHandler (request_of d "") "" fs).2 !! filename_of h = Some (File 384 (d +:+ nl)) /\
  hit_records (d +:+ nl +:+ hit_line sample_time "curl/8")
  = ["hit: 2024/03/07 09:05:01 curl/8"] /\
  hit_records (d +:+ nl) = [].
Proof. repeat split; vm_compute; reflexivity. Qed.

(** C1 (amended): when a unit already exists for [derive d] and the server
    may write it, registering [d] again succeeds and changes no other unit;
    the unit is rewritten to exactly [d] and a line feed, so the destination
    line is [d] again and every hit line the unit held is gone. *)
Theorem save_again_rewrites_unit
    (r : Request) (m : string) (fs : gmap string file) (f : file)
    (Hexists : fs !! filename_of (Hash (newLink (FormValue r "destination"))) = Some f)
    (Hwritable : owner_may_write f = true) :
  let d := FormValue r "destination" in
  let h := Hash (newLink d) in
  saveHandler r m fs
  = (Redirect ("/analytics/" +:+ h) StatusFound,
     <[filename_of h := File (mode f) (d +:+ nl)]> fs) /\
  (forall name, name <> filename_of h ->
                (saveHandler r m fs).2 !! name = fs !! name) /\
  (one_line d -> destination_line (d +:+ nl) = Some d /\ hit_records (d +:+ nl) = []).
Proof.
  intros d h.
  assert (Hrun : saveHandler r m fs
                 = (Redirect ("/analytics/" +:+ h) StatusFound,
                    <[filename_of h := File (mode f) (d +:+ nl)]> fs)).
  { unfold saveHandler, d, h. cbv zeta. rewrite save_cases.
    cbn [Destination]. rewrite Hexists, Hwritable. reflexivity. }
  split; [exact Hrun|]. split.
  - intros name Hne. rewrite Hrun. cbn [snd]. now rewrite lookup_insert_ne.
  - intros Hd. unfold destination_line, hit_records.
    rewrite lines_one by exact Hd. split; reflexivity.
Qed.

Lemma save_again_rewrites_unit_witness :
  let d := "https://example.com/a" in
  let h := Hash (newLink d) in
  let f := File 384 (d +:+ nl +:+ hit_line sample_time "curl/8") in
  let fs : gmap string file := {[ filename_of h := f ]} in
  saveHandler (request_of d "") "" fs
  = (Redirect ("/analytics/" +:+ h) StatusFound,
     <[filename_of h := File 384 (d +:+ nl)]> fs).
Proof.
  intros d h f fs.
  apply (save_again_rewrites_unit (request_of d "") "" fs f).
  - apply lookup_singleton_eq.
  - reflexivity.
Defined.

(** C3 as stated fails for a destination that holds a line feed: the
    analytics come back with the first line only as destination, and the
    rest of the destination reads as a hit record. *)
Lemma register_then_analytics_counterexample :
  let d := two_lines in
  let h := Hash (newLink d) in
  let fs := (saveHandler (request_of d "") "" ∅).2 in
  (analyticsHandler (request_of "" "") h fs).1
  = Executed "analytics.html"
      (OfAnalytics {| GoTo := {| Destination := "a"; Hash := h |};
                      Analytics := d +:+ nl |}) /\
  "a" <> d /\
  hit_records (d +:+ nl) = ["b"].
Proof.
  split; [vm_compute; reflexivity|].
  split; [discriminate | vm_compute; reflexivity].
Qed.

(** C3 (amended): for a destination [d] that holds no line feed, does not
    end with a carriage return and is shorter than the scanner's 64 KiB
    buffer, registering [d] (on a unit that is missing, or that the server
    may read and write) and then asking for the analytics of the returned
    identifier gives a link whose destination is [d] and a history that is
    the destination line alone: zero hit records. *)
Theorem register_then_analytics
    (r r' : Request) (m : string) (fs : gmap string file)
    (Hacc : accessible (Hash (newLink (FormValue r "destination"))) fs)
    (Hline : one_line (FormValue r "destination"))
    (Hcr : ends_with_CR (FormValue r "destination") = false)
    (Hlen : (len (FormValue r "destination") < Bufio.MaxScanTokenSize)%N) :
  let d := FormValue r "destination" in
  let h := Hash (newLink d) in
  (saveHandler r m fs).1 = Redirect ("/analytics/" +:+ h) StatusFound /\
  analyticsHandler r' h (saveHandler r m fs).2
  = (Executed "analytics.html"
       (OfAnalytics {| GoTo := {| Destination := d; Hash := h |};
                       Analytics := d +:+ nl |}),
     (saveHandler r m fs).2) /\
  destination_line (d +:+ nl) = Some d /\
  hit_records (d +:+ nl) = [].
Proof.
  intros d h.
  destruct (saveHandler_accessible r m fs Hacc) as (md & H8 & H7 & Hrun).
  fold d h in Hrun. rewrite Hrun. cbn [fst snd].
  split; [reflexivity|]. split.
  - unfold analyticsHandler.
    rewrite loadLink_cases, loadHits_cases, lookup_insert_eq.
    unfold owner_may_read. cbn [mode contents]. rewrite H8.
    replace (Bufio.first_text (d +:+ nl)) with d; [reflexivity|].
    rewrite <- (append_empty_r (d +:+ nl)), append_assoc.
    rewrite first_text_unit by assumption. now rewrite dropCR_no_CR.
  - unfold destination_line, hit_records.
    rewrite lines_one by exact Hline. split; reflexivity.
Qed.

Lemma register_then_analytics_witness :
  let d := "https://example.com/a" in
  let h := Hash (newLink d) in
  analyticsHandler (request_of "" "") h (saveHandler (request_of d "") "" ∅).2
  = (Executed "analytics.html"
       (OfAnalytics {| GoTo := {| Destination := d; Hash := h |};
                       Analytics := d +:+ nl |}),
     (saveHandler (request_of d "") "" ∅).2).
Proof.
  intros d h.
  apply (register_then_analytics (request_of d "") (request_of "" "") "" ∅).
  - apply accessible_empty.
  - reflexivity.
  - reflexivity.
  - reflexivity.
Defined.

(** C9: a destination with an embedded line feed is stored whole but read
    back cut at its first line feed: [loadLink] after [save] returns the
    text before the line feed, which is not the registered destination. *)
Theorem load_reads_first_line_only
    (d1 d2 : string) (fs : gmap string file)
    (Hacc : accessible (Hash (newLink (d1 +:+ nl +:+ d2))) fs)
    (Hline : one_line d1)
    (Hcr : ends_with_CR d1 = false)
    (Hlen : (len d1 < Bufio.MaxScanTokenSize)%N) :
  let d := d1 +:+ nl +:+ d2 in
  let l := newLink d in
  IndexByte d LF = Some (len d1) /\
  (save l fs).1 = None /\
  loadLink (Hash l) (save l fs).2 = Ok {| Destination := d1; Hash := Hash l |} /\
  d1 <> d.
Proof.
  intros d l.
  assert (Hnl : nl +:+ d2 = String LF d2) by reflexivity.
  split; [unfold d; rewrite Hnl; now apply IndexByte_first_LF|].
  destruct (save_accessible l fs Hacc) as (md & H8 & H7 & Hsave).
  rewrite Hsave. cbn [fst snd]. split; [reflexivity|]. split.
  - rewrite loadLink_cases, lookup_insert_eq.
    unfold owner_may_read. cbn [mode contents]. rewrite H8.
    change (Destination l) with d. unfold d.
    rewrite !append_assoc. rewrite first_text_unit by assumption.
    now rewrite dropCR_no_CR.
  - intros E. apply (f_equal len) in E. unfold d in E.
    rewrite !len_append in E. unfold nl in E. simpl len in E. lia.
Qed.

Lemma load_reads_first_line_only_witness :
  let l := newLink two_lines in
  loadLink (Hash l) (save l ∅).2 = Ok {| Destination := "a"; Hash := Hash l |} /\
  "a" <> two_lines.
Proof.
  intros l.
  assert (H := load_reads_first_line_only "a" "b" ∅
                 (accessible_empty _) eq_refl eq_refl eq_refl).
  split; [apply H | apply H].
Defined.

(** C10: the empty destination is not rejected.  [saveHandler] has no
    validation step: its only failure is the error of opening the file.
    Where the unit is missing or may be read and written, registering the
    empty destination succeeds, the identifier is the SHA-256 digest of the
    empty byte string, and the unit holds a single empty line. *)
Theorem register_empty_destination
    (r : Request) (m : string) (fs : gmap string file)
    (Hempty : FormValue r "destination" = EmptyString) :
  let h := "e3b0c44298fc1c149afbf4c8996fb92427ae41e4649b934ca495991b7852b855" in
  Hash (newLink (FormValue r "destination")) = h /\
  ((saveHandler r m fs).1 = Redirect ("/analytics/" +:+ h) StatusFound \/
   saveHandler r m fs
   = (HttpError (Error (mkPathError "open" (filename_of h) EACCES))
                StatusInternalServerError, fs)) /\
  (accessible h fs ->
   (saveHandler r m fs).1 = Redirect ("/analytics/" +:+ h) StatusFound /\
   exists f,
     (saveHandler r m fs).2 !! filename_of h = Some f /\
     contents f = nl /\
     lines (contents f) = [EmptyString]).
Proof.
  intros h.
  assert (Hh : Hash (newLink (FormValue r "destination")) = h)
    by (rewrite Hempty; apply newLink_empty).
  split; [exact Hh|]. split.
  - unfold saveHandler. cbv zeta. rewrite save_cases, Hh.
    destruct (fs !! filename_of h) as [f|]; [|left; reflexivity].
    destruct (owner_may_write f); [left | right]; reflexivity.
  - intros Hacc. rewrite <- Hh in Hacc.
    destruct (saveHandler_accessible r m fs Hacc) as (md & H8 & H7 & Hrun).
    rewrite Hh, Hempty in Hrun. rewrite Hrun. cbn [fst snd].
    split; [reflexivity|].
    exists (File md (EmptyString +:+ nl)). rewrite lookup_insert_eq.
    repeat split.
Qed.

Lemma register_empty_destination_witness :
  let h := "e3b0c44298fc1c149afbf4c8996fb92427ae41e4649b934ca495991b7852b855" in
  FormValue (request_of "" "") "destination" = EmptyString /\
  Hash (newLink (FormValue (request_of "" "") "destination")) = h /\
  (accessible h ∅ ->
   (saveHandler (request_of "" "") "" ∅).1 = Redirect ("/analytics/" +:+ h) StatusFound /\
   exists f,
     (saveHandler (request_of "" "") "" ∅).2 !! filename_of h = Some f /\
     contents f = nl /\
     lines (contents f) = [EmptyString]).
Proof.
  intros h.
  assert (H := register_empty_destination (request_of "" "") "" ∅ eq_refl).
  split; [reflexivity|]. split; [apply H | apply H].
Defined.

(** ** Visits *)

Section VisitFacts.

Implicit Types (fs : gmap string file) (f : file).

(** Both visit handlers treat the directory alike. *)
Lemma visit_directory (c : call) (h : string) fs :
  is_visit_of h c ->
  (serve c fs).2 =
  match fs !! filename_of h, event_of c with
  | Some f, Some ev =>
      if owner_may_read f && owner_may_write f
      then <[filename_of h := File (mode f) (contents f +:+ hit_line ev.1 ev.2)]> fs
      else fs
  | _, _ => fs
  end.
Proof.
  destruct c as [r m|r m|r m|now r m|now r m]; cbn [is_visit_of]; try tauto;
    intros ->; cbn [serve event_of fst snd];
    unfold goHandler, collectHandler; rewrite loadLink_cases;
    (destruct (fs !! filename_of h) as [f|] eqn:Hf; [|reflexivity]);
    (destruct (owner_may_read f); [|reflexivity]);
    cbn [Hash andb]; rewrite gotHit_cases, Hf;
    destruct (owner_may_write f); reflexivity.
Qed.

Lemma events_of_visit (c : call) (cs : list call) (h : string) :
  is_visit_of h c -> exists ev, event_of c = Some ev /\ events_of (c :: cs) = ev :: events_of cs.
Proof.
  destruct c; cbn [is_visit_of]; try tauto; intros _; eexists; split; reflexivity.
Qed.

Lemma events_of_length (cs : list call) (h : string) :
  Forall (is_visit_of h) cs -> length (events_of cs) = length cs.
Proof.
  induction 1 as [|c cs Hc Hcs IH]; [reflexivity|].
  destruct (events_of_visit c cs h Hc) as (ev & _ & ->). simpl. now rewrite IH.
Qed.

(** A run of visits of one identifier appends their hit lines, in order, to
    its unit. *)
Lemma run_visits (cs : list call) (h : string) fs f :
  Forall (is_visit_of h) cs ->
  fs !! filename_of h = Some f ->
  owner_may_read f = true -> owner_may_write f = true ->
  run cs fs
  = <[filename_of h := File (mode f) (contents f +:+ hit_bytes (events_of cs))]> fs.
Proof.
  intros Hcs. revert fs f.
  induction Hcs as [|c cs Hc Hcs IH]; intros fs f Hf Hr Hw.
  - cbn [run events_of omap hit_bytes]. rewrite append_empty_r.
    symmetry. apply insert_id. rewrite Hf. now destruct f.
  - cbn [run]. rewrite (visit_directory c h fs Hc), Hf.
    destruct (events_of_visit c cs h Hc) as (ev & -> & ->).
    rewrite Hr, Hw. cbn [andb].
    rewrite (IH _ (File (mode f) (contents f +:+ hit_line ev.1 ev.2)));
      [|apply lookup_insert_eq|exact Hr|exact Hw].
    cbn [mode contents].
    now rewrite insert_insert_eq, hit_bytes_cons, append_assoc.
Qed.

End VisitFacts.

(** C2 as stated fails for an identifier registered from a destination
    that holds a line feed: after one visit the history has two lines
    after the first, not one. *)
Lemma visits_then_analytics_counterexample :
  let d := two_lines in
  let h := Hash (newLink d) in
  let fs := run [Save (request_of d "") ""; Go sample_time (request_of "" "curl/8") h] ∅ in
  let raw := d +:+ nl +:+ hit_line sample_time "curl/8" in
  (analyticsHandler (request_of "" "") h fs).1
  = Executed "analytics.html"
      (OfAnalytics {| GoTo := {| Destination := "a"; Hash := h |}; Analytics := raw |}) /\
  hit_records raw = ["b"; "hit: 2024/03/07 09:05:01 curl/8"] /\
  length (hit_records raw) <> 1%nat.
Proof.
  split; [vm_compute; reflexivity|].
  split; [vm_compute; reflexivity | vm_compute; discriminate].
Qed.

(** C2 (amended): register a destination that holds no line feed, then
    visit its identifier N times (redirecting or collecting) with client
    signatures that hold no line feed.  The analytics then carry the
    destination line followed by exactly N hit records, in call order, the
    i-th being [hit: <timestamp_i> <ua_i>]. *)
Theorem visits_then_analytics
    (r rA : Request) (m : string) (cs : list call) (fs : gmap string file)
    (Hacc : accessible (Hash (newLink (FormValue r "destination"))) fs)
    (Hline : one_line (FormValue r "destination"))
    (Hvisits : Forall (is_visit_of (Hash (newLink (FormValue r "destination")))) cs)
    (Huas : Forall (fun ev => one_line ev.2) (events_of cs)) :
  let d := FormValue r "destination" in
  let h := Hash (newLink d) in
  let fs' := run cs (saveHandler r m fs).2 in
  let raw := d +:+ nl +:+ hit_bytes (events_of cs) in
  (exists l, analyticsHandler rA h fs'
             = (Executed "analytics.html" (OfAnalytics {| GoTo := l; Analytics := raw |}), fs')) /\
  hit_records raw = map hit_record (events_of cs) /\
  length (hit_records raw) = length cs /\
  Forall2 (fun rec ev => Contains rec ev.2 = true) (hit_records raw) (events_of cs).
Proof.
  intros d h fs' raw.
  destruct (saveHandler_accessible r m fs Hacc) as (md & H8 & H7 & Hrun).
  fold d h in Hrun.
  assert (Hfs' : fs' = <[filename_of h := File md raw]> fs).
  { unfold fs'. rewrite Hrun. cbn [snd].
    rewrite (run_visits cs h _ (File md (d +:+ nl)));
      [|exact Hvisits|apply lookup_insert_eq|exact H8|exact H7].
    cbn [mode contents]. unfold raw. now rewrite insert_insert_eq, append_assoc. }
  assert (Hrec : hit_records raw = map hit_record (events_of cs)).
  { unfold hit_records, raw. now rewrite lines_unit. }
  split; [|split; [exact Hrec|split]].
  - eexists. unfold analyticsHandler.
    rewrite loadLink_cases, loadHits_cases, Hfs', lookup_insert_eq.
    unfold owner_may_read. cbn [mode contents]. rewrite H8. reflexivity.
  - rewrite Hrec, length_map. now apply events_of_length with (h := h).
  - rewrite Hrec. clear. induction (events_of cs) as [|ev evs IH]; constructor; [|exact IH].
    apply Contains_suffix.
Qed.

Lemma visits_then_analytics_witness :
  let d := "https://example.com/a" in
  let h := Hash (newLink d) in
  let cs := [Go sample_time (request_of "" "curl/8") h;
             Collect sample_time (request_of "" "Mozilla/5.0") h] in
  hit_records (d +:+ nl +:+ hit_bytes (events_of cs)) = map hit_record (events_of cs).
Proof.
  intros d h cs.
  apply (visits_then_analytics (request_of d "") (request_of "" "") "" cs ∅).
  - apply accessible_empty.
  - reflexivity.
  - repeat constructor.
  - repeat constructor.
Defined.

(** ** The layout is an invariant *)

Section LayoutFacts.

Implicit Types (fs : gmap string file) (f : file) (regs : list string).

Lemma unit_of_mono regs d0 name f : unit_of regs name f -> unit_of (d0 :: regs) name f.
Proof.
  intros (Hm & d & evs & Hd & Hn & Hc). split; [exact Hm|].
  exists d, evs. split; [now apply list_elem_of_further | auto].
Qed.

Lemma unit_of_rw regs name f :
  unit_of regs name f -> owner_may_read f = true /\ owner_may_write f = true.
Proof. intros (Hm & _). unfold owner_may_read, owner_may_write. rewrite Hm. split; reflexivity. Qed.

Lemma layout_empty : layout [] ∅.
Proof.
  split.
  - intros d Hd. now apply elem_of_nil in Hd.
  - intros name f Hf. now rewrite lookup_empty in Hf.
Qed.

Lemma layout_save regs fs d :
  layout regs fs ->
  layout (d :: regs) (<[filename_of (Hash (newLink d)) := File 384 (d +:+ nl)]> fs).
Proof.
  intros [Hreg Hunits]. split.
  - intros d' Hd'. apply lookup_insert_is_Some'.
    apply elem_of_cons in Hd' as [->|Hd']; [now left | right; now apply Hreg].
  - intros name f Hf. apply lookup_insert_Some in Hf as [[<- <-]|[Hne Hf]].
    + split; [reflexivity|]. exists d, []. split; [apply list_elem_of_here|].
      split; reflexivity.
    + apply unit_of_mono. now apply Hunits.
Qed.

Lemma layout_hit regs fs h f ev :
  layout regs fs ->
  fs !! filename_of h = Some f ->
  layout regs (<[filename_of h := File (mode f) (contents f +:+ hit_line ev.1 ev.2)]> fs).
Proof.
  intros [Hreg Hunits] Hf. split.
  - intros d Hd. apply lookup_insert_is_Some'. right. now apply Hreg.
  - intros name f' Hf'. apply lookup_insert_Some in Hf' as [[<- <-]|[Hne Hf']];
      [|now apply Hunits].
    destruct (Hunits _ _ Hf) as (Hm & d & evs & Hd & Hn & Hc).
    split; [exact Hm|]. exists d, (evs ++ [ev]).
    split; [exact Hd|]. split; [exact Hn|].
    cbn [contents]. rewrite Hc, hit_bytes_app, hit_bytes_cons.
    cbn [hit_bytes]. now rewrite append_empty_r, !append_assoc.
Qed.

Lemma analyticsHandler_directory (r : Request) (m : string) fs :
  (analyticsHandler r m fs).2 = fs.
Proof.
  unfold analyticsHandler.
  destruct (loadLink m fs); [|reflexivity]. now destruct (loadHits m fs).
Qed.

(** One request keeps the layout; a registration that goes through adds its
    destination to the registered ones. *)
Lemma layout_step (c : call) regs fs :
  layout regs fs -> layout (registered [c] fs regs) (serve c fs).2.
Proof.
  intros Hlay. destruct c as [r m|r m|r m|now r m|now r m].
  - exact Hlay.
  - cbn [registered serve]. unfold saveHandler. cbv zeta. rewrite save_cases.
    cbn [Destination].
    set (d := FormValue r "destination").
    destruct (fs !! filename_of (Hash (newLink d))) as [f|] eqn:Hf.
    + destruct (proj2 Hlay _ _ Hf) as [Hm _].
      unfold owner_may_write. rewrite Hm. change (Z.testbit 384 7) with true.
      cbn [fst snd]. now apply layout_save.
    + cbn [fst snd]. now apply layout_save.
  - cbn [registered serve]. now rewrite analyticsHandler_directory.
  - cbn [registered].
    rewrite (visit_directory (Go now r m) m fs eq_refl). cbn [event_of].
    destruct (fs !! filename_of m) as [f|] eqn:Hf; [|exact Hlay].
    destruct (owner_may_read f && owner_may_write f); [|exact Hlay].
    now apply (layout_hit regs fs m f (now, HeaderGet r "User-Agent")).
  - cbn [registered].
    rewrite (visit_directory (Collect now r m) m fs eq_refl). cbn [event_of].
    destruct (fs !! filename_of m) as [f|] eqn:Hf; [|exact Hlay].
    destruct (owner_may_read f && owner_may_write f); [|exact Hlay].
    now apply (layout_hit regs fs m f (now, HeaderGet r "User-Agent")).
Qed.

Lemma layout_run (cs : list call) regs fs :
  layout regs fs -> layout (registered cs fs regs) (run cs fs).
Proof.
  revert regs fs. induction cs as [|c cs IH]; intros regs fs Hlay; [exact Hlay|].
  cbn [registered run]. apply IH. exact (layout_step c regs fs Hlay).
Qed.

(** In a directory the server made itself, every unit is missing or may be
    read and written. *)
Lemma reachable_accessible (h : string) fs : reachable fs -> accessible h fs.
Proof.
  intros [cs ->]. unfold accessible.
  destruct (run cs ∅ !! filename_of h) as [f|] eqn:Hf; [|exact I].
  destruct (layout_run cs [] ∅ layout_empty) as [_ Hunits].
  exact (unit_of_rw _ _ _ (Hunits _ _ Hf)).
Qed.

End LayoutFacts.

(** C8 as stated fails for a destination that holds a line feed: the first
    line of its unit is not the destination, and the second line is no hit
    record. *)
Lemma storage_layout_counterexample :
  let d := two_lines in
  let cs := [Save (request_of d "") ""] in
  registered cs ∅ [] = [d] /\
  run cs ∅ = {[ filename_of (Hash (newLink d)) := File 384 (d +:+ nl) ]} /\
  destination_line (d +:+ nl) = Some "a" /\
  Some "a" <> Some d /\
  hit_records (d +:+ nl) = ["b"] /\
  String.prefix "hit: " "b" = false.
Proof.
  split; [vm_compute; reflexivity|].
  split; [vm_compute; reflexivity|].
  split; [vm_compute; reflexivity|].
  split; [discriminate|].
  split; vm_compute; reflexivity.
Qed.

(** C8 (amended): after any sequence of requests served from an empty
    directory, every registered destination has its file, and every file
    is the unit of a registered destination [d]: it is named
    [<identifier of d>.linkanalytics] and holds [d], a line feed, and then
    for each hit the bytes [hit: <timestamp> <client signature>] and a line
    feed.  Whenever [d] and the client signatures hold no line feed, the
    first line of the file is [d] and every later line is one hit record. *)
Theorem storage_layout (cs : list call) :
  let fs := run cs ∅ in
  let regs := registered cs ∅ [] in
  (forall d, d ∈ regs -> is_Some (fs !! (Hash (newLink d) +:+ ".linkanalytics"))) /\
  (forall name f, fs !! name = Some f ->
     exists d evs,
       d ∈ regs /\
       name = Hash (newLink d) +:+ ".linkanalytics" /\
       contents f = d +:+ nl +:+ hit_bytes evs /\
       (one_line d -> Forall (fun ev => one_line ev.2) evs ->
        destination_line (contents f) = Some d /\
        hit_records (contents f) = map hit_record evs)).
Proof.
  intros fs regs.
  destruct (layout_run cs [] ∅ layout_empty) as [Hreg Hunits].
  split; [exact Hreg|].
  intros name f Hf.
  destruct (Hunits name f Hf) as (_ & d & evs & Hd & Hn & Hc).
  exists d, evs. split; [exact Hd|]. split; [exact Hn|]. split; [exact Hc|].
  intros Hline Huas. unfold destination_line, hit_records.
  rewrite Hc, lines_unit by assumption. split; reflexivity.
Qed.

(** * Further properties of main.go *)

(** ** Routing *)

Section RoutingFacts.

Lemma cut_prefix_Some (p s rest : string) :
  cut_prefix p s = Some rest <-> s = p +:+ rest.
Proof.
  revert s. induction p as [|a p IH]; intros s; simpl.
  - split; [now intros [= ->] | now intros ->].
  - destruct s as [|b s]; [split; discriminate|].
    destruct (Ascii.eqb_spec a b) as [->|Hne].
    + rewrite IH. split; [now intros -> | now intros [= ->]].
    + split; [discriminate | congruence].
Qed.

Lemma match_keyword_sound (kws : list string) (s kw rest : string) :
  match_keyword kws s = Some (kw, rest) ->
  kw ∈ kws /\ all_alnum rest = true /\ s = kw +:+ "/" +:+ rest.
Proof.
  induction kws as [|k kws IH]; simpl; [discriminate|].
  destruct (cut_prefix (k +:+ "/") s) as [r|] eqn:Hcut.
  - destruct (all_alnum r) eqn:Hr.
    + intros [= <- <-]. apply cut_prefix_Some in Hcut.
      split; [apply list_elem_of_here|]. split; [exact Hr|].
      rewrite Hcut. exact (append_assoc k "/" r).
    + intros H. destruct (IH H) as (Hin & Ha & Hs).
      split; [now apply list_elem_of_further | auto].
  - intros H. destruct (IH H) as (Hin & Ha & Hs).
    split; [now apply list_elem_of_further | auto].
Qed.

Lemma match_keyword_complete (kw m : string) :
  kw ∈ keywords -> all_alnum m = true ->
  match_keyword keywords (kw +:+ "/" +:+ m) = Some (kw, m).
Proof.
  intros Hkw Hm. unfold keywords in Hkw.
  repeat (apply elem_of_cons in Hkw as [->|Hkw]; [simpl; now rewrite Hm|]).
  now apply elem_of_nil in Hkw.
Qed.

Lemma is_lower_hex_alnum (c : ascii) : Hex.is_lower_hex c = true -> is_alnum c = true.
Proof.
  unfold Hex.is_lower_hex, is_alnum. cbv zeta.
  rewrite !orb_true_iff, !andb_true_iff, !N.leb_le. lia.
Qed.

Lemma all_lower_hex_alnum (s : string) : Hex.all_lower_hex s = true -> all_alnum s = true.
Proof.
  induction s as [|c s IH]; [reflexivity|]. simpl.
  rewrite !andb_true_iff. intros [Hc Hs]. split; [now apply is_lower_hex_alnum | auto].
Qed.

Lemma all_alnum_excludes (c : ascii) (m : string) :
  is_alnum c = false -> all_alnum m = true -> IndexByte m c = None.
Proof.
  intros Hc. induction m as [|x m IH]; [reflexivity|]. simpl.
  rewrite andb_true_iff. intros [Hx Hm].
  destruct (Ascii.eqb_spec x c) as [->|_]; [congruence|]. now rewrite IH.
Qed.

Lemma all_alnum_Hash (d : string) : all_alnum (Hash (newLink d)) = true.
Proof.
  apply all_lower_hex_alnum. unfold newLink. cbn [Hash].
  apply EncodeToString_lower_hex, sum_range.
Qed.

Lemma validPathComponent_inv (path : string) (l : list string) :
  validPathComponent path = Some l ->
  exists kw m,
    kw ∈ keywords /\ all_alnum m = true /\
    path = "/" +:+ kw +:+ "/" +:+ m /\ l = [path; kw; m].
Proof.
  unfold validPathComponent.
  destruct (cut_prefix "/" path) as [s|] eqn:Hcut; [|discriminate].
  apply cut_prefix_Some in Hcut.
  destruct (match_keyword keywords s) as [[kw rest]|] eqn:Hm; [|discriminate].
  intros [= <-]. destruct (match_keyword_sound _ _ _ _ Hm) as (Hin & Ha & ->).
  exists kw, rest. auto.
Qed.

Lemma validPathComponent_build (kw m : string) :
  kw ∈ keywords -> all_alnum m = true ->
  validPathComponent ("/" +:+ kw +:+ "/" +:+ m)
  = Some ["/" +:+ kw +:+ "/" +:+ m; kw; m].
Proof.
  intros Hkw Hm. unfold validPathComponent.
  assert (Hcut : cut_prefix "/" ("/" +:+ kw +:+ "/" +:+ m) = Some (kw +:+ "/" +:+ m))
    by reflexivity.
  rewrite Hcut, match_keyword_complete by assumption. reflexivity.
Qed.

End RoutingFacts.

(** X1: [validPathComponent] accepts exactly the paths made of a slash, one
    of the five keywords, a slash and a run (possibly empty) of ASCII
    letters and digits; the submatches are the path, the keyword and the
    run. *)
Theorem validPathComponent_matches (path : string) (l : list string) :
  validPathComponent path = Some l <->
  exists kw m,
    kw ∈ keywords /\ all_alnum m = true /\
    path = "/" +:+ kw +:+ "/" +:+ m /\ l = [path; kw; m].
Proof.
  split; [apply validPathComponent_inv|].
  intros (kw & m & Hkw & Hm & -> & ->). now apply validPathComponent_build.
Qed.

(** X2: the handler [wrapHandler] returns answers 404 and leaves the
    directory alone on every path the pattern rejects, without running the
    wrapped handler; on every other path it runs the wrapped handler on the
    component after the keyword, which is made of letters and digits only
    and so holds no slash and no dot.  Indexing the submatches never
    panics. *)
Theorem wrapHandler_cases
    (fn : Request -> string -> gmap string file -> response * gmap string file)
    (path : string) (r : Request) (fs : gmap string file) :
  (validPathComponent path = None /\ wrapHandler fn path r fs = (http_NotFound, fs)) \/
  (exists kw m,
     kw ∈ keywords /\ path = "/" +:+ kw +:+ "/" +:+ m /\
     all_alnum m = true /\ IndexByte m "/" = None /\ IndexByte m "." = None /\
     wrapHandler fn path r fs = fn r m fs).
Proof.
  unfold wrapHandler.
  destruct (validPathComponent path) as [l|] eqn:Hv; [right | left; auto].
  apply validPathComponent_inv in Hv as (kw & m & Hkw & Hm & Hp & ->).
  exists kw, m. split; [exact Hkw|]. split; [exact Hp|]. split; [exact Hm|].
  split; [now apply all_alnum_excludes|]. split; [now apply all_alnum_excludes|].
  reflexivity.
Qed.

(** X3: whenever [saveHandler] redirects, the target is a path
    [validPathComponent] accepts, with keyword [analytics] and the new
    identifier as component: following the redirect through [wrapHandler]
    runs [analyticsHandler] on that identifier. *)
Theorem save_redirect_is_route
    (r r' : Request) (m url : string) (code : Z) (fs fs' : gmap string file)
    (Hsaved : saveHandler r m fs = (Redirect url code, fs')) :
  let h := Hash (newLink (FormValue r "destination")) in
  validPathComponent url = Some [url; "analytics"; h] /\
  wrapHandler analyticsHandler url r' fs' = analyticsHandler r' h fs'.
Proof.
  cbv zeta. unfold saveHandler in Hsaved. cbv zeta in Hsaved.
  destruct (save _ fs) as [[err|] fs1]; [discriminate|].
  injection Hsaved as <- _ _.
  set (h := Hash (newLink (FormValue r "destination"))).
  assert (Hv : validPathComponent ("/analytics/" +:+ h)
               = Some ["/analytics/" +:+ h; "analytics"; h]).
  { apply (validPathComponent_build "analytics" h); [|apply all_alnum_Hash].
    unfold keywords. do 2 apply list_elem_of_further. apply list_elem_of_here. }
  change (validPathComponent ("/analytics/" +:+ h)
          = Some ["/analytics/" +:+ h; "analytics"; h] /\
          wrapHandler analyticsHandler ("/analytics/" +:+ h) r' fs'
          = analyticsHandler r' h fs').
  split; [exact Hv|]. unfold wrapHandler. now rewrite Hv.
Qed.

Lemma save_redirect_is_route_witness :
  let d := "https://example.com/a" in
  let h := Hash (newLink d) in
  let fs' : gmap string file := {[ filename_of h := File 384 (d +:+ nl) ]} in
  saveHandler (request_of d "") "" ∅ = (Redirect ("/analytics/" +:+ h) StatusFound, fs') /\
  wrapHandler analyticsHandler ("/analytics/" +:+ h) (request_of "" "") fs'
  = analyticsHandler (request_of "" "") h fs'.
Proof.
  intros d h fs'.
  assert (Hrun : saveHandler (request_of d "") "" ∅
                 = (Redirect ("/analytics/" +:+ h) StatusFound, fs')).
  { unfold saveHandler. cbv zeta. rewrite save_cases, lookup_empty. reflexivity. }
  split; [exact Hrun|].
  apply (save_redirect_is_route (request_of d "") (request_of "" "") "" _ _ ∅ fs' Hrun).
Defined.

(** X4: every path [validPathComponent] accepts has exactly one of the
    patterns registered in [main] as a prefix, the one of its keyword; so
    the handler that runs is the one registered for the keyword the pattern
    matched. *)
Theorem routes_cover_valid_paths (path kw m : string)
    (Hvalid : validPathComponent path = Some [path; kw; m]) :
  exists mk,
    List.filter (fun rt => String.prefix rt.1 path) routes = [("/" +:+ kw +:+ "/", mk)].
Proof.
  apply validPathComponent_inv in Hvalid as (kw' & m' & Hkw & Hm & Hp & [= <- <-]).
  subst path. unfold keywords in Hkw.
  repeat (apply elem_of_cons in Hkw as [->|Hkw];
          [eexists; simpl; destruct m; reflexivity|]).
  now apply elem_of_nil in Hkw.
Qed.

Lemma routes_cover_valid_paths_witness :
  validPathComponent "/go/abc123" = Some ["/go/abc123"; "go"; "abc123"] /\
  exists mk,
    List.filter (fun rt => String.prefix rt.1 "/go/abc123") routes = [("/go/", mk)].
Proof.
  split; [reflexivity|].
  apply (routes_cover_valid_paths "/go/abc123" "go" "abc123"). reflexivity.
Defined.

(** ** Handlers on their error paths *)

(** X5: when the unit of an identifier may be read but not written,
    [goHandler] and [collectHandler] load the link, fail to open the unit
    for appending, and then call [Error] on the nil error of [loadLink]:
    they panic instead of answering, and the directory is unchanged. *)
Theorem visit_panics_on_read_only_unit
    (now : Time) (r : Request) (m : string) (fs : gmap string file) (f : file)
    (Hunit : fs !! filename_of m = Some f)
    (Hread : owner_may_read f = true)
    (Hwrite : owner_may_write f = false) :
  goHandler now r m fs = (Panic, fs) /\ collectHandler now r m fs = (Panic, fs).
Proof.
  unfold goHandler, collectHandler.
  rewrite loadLink_cases, Hunit, Hread. cbn [Hash].
  rewrite gotHit_cases, Hunit, Hwrite. split; reflexivity.
Qed.

Lemma visit_panics_on_read_only_unit_witness :
  let fs : gmap string file := {[ filename_of "abc123" := File 256 ("d" +:+ nl) ]} in
  goHandler sample_time (request_of "" "curl/8") "abc123" fs = (Panic, fs) /\
  collectHandler sample_time (request_of "" "curl/8") "abc123" fs = (Panic, fs).
Proof.
  intros fs.
  apply (visit_panics_on_read_only_unit sample_time (request_of "" "curl/8") "abc123" fs
           (File 256 ("d" +:+ nl))).
  - apply lookup_singleton_eq.
  - reflexivity.
  - reflexivity.
Defined.

Lemma analyticsHandler_cases (r : Request) (m : string) (fs : gmap string file) :
  analyticsHandler r m fs =
  match fs !! filename_of m with
  | None =>
      (HttpError (Error (mkPathError "open" (filename_of m) ENOENT))
                 StatusInternalServerError, fs)
  | Some f =>
      if owner_may_read f
      then (Executed "analytics.html"
              (OfAnalytics {| GoTo := {| Destination := Bufio.first_text (contents f);
                                         Hash := m |};
                              Analytics := contents f |}), fs)
      else (HttpError (Error (mkPathError "open" (filename_of m) EACCES))
                      StatusInternalServerError, fs)
  end.
Proof.
  unfold analyticsHandler. rewrite loadLink_cases, loadHits_cases.
  destruct (fs !! filename_of m) as [f|]; [|reflexivity].
  now destruct (owner_may_read f).
Qed.


Section HandlerFacts.

Implicit Types (fs : gmap string file) (f : file).

Lemma goHandler_cases (now : Time) (r : Request) (m : string) fs :
  goHandler now r m fs =
  match fs !! filename_of m with
  | None =>
      (HttpError (Error (mkPathError "open" (filename_of m) ENOENT))
                 StatusInternalServerError, fs)
  | Some f =>
      if owner_may_read f
      then if owner_may_write f
           then (Redirect (Bufio.first_text (contents f)) StatusFound,
                 <[filename_of m :=
                     File (mode f) (contents f +:+ hit_line now (HeaderGet r "User-Agent"))]> fs)
           else (Panic, fs)
      else (HttpError (Error (mkPathError "open" (filename_of m) EACCES))
                      StatusInternalServerError, fs)
  end.
Proof.
  unfold goHandler. rewrite loadLink_cases.
  destruct (fs !! filename_of m) as [f|] eqn:Hf; [|reflexivity].
  destruct (owner_may_read f); [|reflexivity].
  cbn [Hash Destination]. rewrite gotHit_cases, Hf.
  now destruct (owner_may_write f).
Qed.

Lemma collectHandler_cases (now : Time) (r : Request) (m : string) fs :
  collectHandler now r m fs =
  match fs !! filename_of m with
  | None =>
      (HttpError (Error (mkPathError "open" (filename_of m) ENOENT))
                 StatusInternalServerError, fs)
  | Some f =>
      if owner_may_read f
      then if owner_may_write f
           then (Printed ("200 OK " +:+ m),
                 <[filename_of m :=
                     File (mode f) (contents f +:+ hit_line now (HeaderGet r "User-Agent"))]> fs)
           else (Panic, fs)
      else (HttpError (Error (mkPathError "open" (filename_of m) EACCES))
                      StatusInternalServerError, fs)
  end.
Proof.
  unfold collectHandler. rewrite loadLink_cases.
  destruct (fs !! filename_of m) as [f|] eqn:Hf; [|reflexivity].
  destruct (owner_may_read f); [|reflexivity].
  cbn [Hash Destination]. rewrite gotHit_cases, Hf.
  now destruct (owner_may_write f).
Qed.

Lemma saveHandler_cases (r : Request) (m : string) fs :
  let d := FormValue r "destination" in
  let h := Hash (newLink d) in
  saveHandler r m fs =
  match fs !! filename_of h with
  | None =>
      (Redirect ("/analytics/" +:+ h) StatusFound,
       <[filename_of h := File 384 (d +:+ nl)]> fs)
  | Some f =>
      if owner_may_write f
      then (Redirect ("/analytics/" +:+ h) StatusFound,
            <[filename_of h := File (mode f) (d +:+ nl)]> fs)
      else (HttpError (Error (mkPathError "open" (filename_of h) EACCES))
                      StatusInternalServerError, fs)
  end.
Proof.
  intros d h. unfold saveHandler. cbv zeta. rewrite save_cases. fold d h.
  change (Destination (newLink d)) with d.
  destruct (fs !! filename_of h) as [f|]; [|reflexivity].
  now destruct (owner_may_write f).
Qed.

(** A request leaves the directory alone or rewrites the file of its
    target, keeping the mode of a file that was there. *)
Lemma serve_writes (c : call) fs :
  (serve c fs).2 = fs \/
  exists h md data,
    target_of c = Some h /\
    (serve c fs).2 = <[filename_of h := File md data]> fs /\
    (forall f, fs !! filename_of h = Some f -> md = mode f).
Proof.
  destruct c as [r m|r m|r m|now r m|now r m]; cbn [serve target_of].
  - now left.
  - rewrite saveHandler_cases.
    destruct (fs !! filename_of _) as [f|] eqn:Hf.
    + destruct (owner_may_write f); [|now left].
      right. do 3 eexists. split; [reflexivity|]. split; [reflexivity|].
      intros f' Hf'. congruence.
    + right. do 3 eexists. split; [reflexivity|]. split; [reflexivity|].
      intros f' Hf'. congruence.
  - left. apply analyticsHandler_directory.
  - rewrite goHandler_cases.
    destruct (fs !! filename_of m) as [f|] eqn:Hf; [|now left].
    destruct (owner_may_read f); [|now left].
    destruct (owner_may_write f); [|now left].
    right. do 3 eexists. split; [reflexivity|]. split; [reflexivity|].
    intros f' Hf'. congruence.
  - rewrite collectHandler_cases.
    destruct (fs !! filename_of m) as [f|] eqn:Hf; [|now left].
    destruct (owner_may_read f); [|now left].
    destruct (owner_may_write f); [|now left].
    right. do 3 eexists. split; [reflexivity|]. split; [reflexivity|].
    intros f' Hf'. congruence.
Qed.

Lemma IndexByte_append_found (a x : string) (c : ascii) (i : N) :
  IndexByte a c = Some i -> IndexByte (a +:+ x) c = Some i.
Proof.
  revert i. induction a as [|y a IH]; intros i; simpl; [discriminate|].
  destruct (Ascii.eqb y c); [trivial|].
  destruct (IndexByte a c) as [j|]; [|discriminate].
  intros [= <-]. now rewrite (IH j).
Qed.

Lemma slice_to_append_found (a x : string) (c : ascii) (i : N) :
  IndexByte a c = Some i -> slice_to i (a +:+ x) = slice_to i a.
Proof.
  revert i. induction a as [|y a IH]; intros i; simpl; [discriminate|].
  destruct (Ascii.eqb y c).
  - now intros [= <-].
  - destruct (IndexByte a c) as [j|]; [|discriminate].
    intros [= <-]. destruct (N.eqb_spec (N.succ j) 0) as [E|_]; [lia|].
    rewrite N.pred_succ. now rewrite (IH j).
Qed.

Lemma first_text_append (a x : string) (i : N) :
  IndexByte a LF = Some i -> Bufio.first_text (a +:+ x) = Bufio.first_text a.
Proof.
  intros Hi. unfold Bufio.first_text.
  rewrite (IndexByte_append_found a x LF i Hi), Hi.
  now rewrite (slice_to_append_found a x LF i Hi).
Qed.

Lemma slice_to_before (s : string) (c : ascii) (i : N) :
  IndexByte s c = Some i ->
  IndexByte (slice_to i s) c = None /\ len (slice_to i s) = i.
Proof.
  revert i. induction s as [|y s IH]; intros i; simpl; [discriminate|].
  destruct (Ascii.eqb y c) eqn:Ey.
  - intros [= <-]. split; reflexivity.
  - destruct (IndexByte s c) as [j|]; [|discriminate].
    intros [= <-]. destruct (N.eqb_spec (N.succ j) 0) as [E|_]; [lia|].
    rewrite N.pred_succ. destruct (IH j eq_refl) as [Hnone Hlen].
    simpl. rewrite Ey, Hnone, Hlen. split; reflexivity.
Qed.

Lemma dropCR_one_line (s : string) : one_line s -> one_line (Bufio.dropCR s).
Proof.
  induction s as [|x s IH]; [trivial|].
  intros Hs. apply one_line_cons in Hs as [Hx Hs]. simpl.
  destruct s as [|y s'].
  - destruct (Ascii.eqb x CR); [reflexivity|]. now apply one_line_cons.
  - apply one_line_cons. split; [exact Hx | now apply IH].
Qed.

Lemma dropCR_len (s : string) : (len (Bufio.dropCR s) <= len s)%N.
Proof.
  induction s as [|x s IH]; [reflexivity|]. simpl Bufio.dropCR.
  destruct s as [|y s'].
  - destruct (Ascii.eqb x CR); simpl; lia.
  - change (len (String x (Bufio.dropCR (String y s')))) with
      (N.succ (len (Bufio.dropCR (String y s')))).
    change (len (String x (String y s'))) with (N.succ (len (String y s'))). lia.
Qed.

Lemma first_text_bounds (data : string) :
  one_line (Bufio.first_text data) /\
  (len (Bufio.first_text data) < Bufio.MaxScanTokenSize)%N.
Proof.
  unfold Bufio.first_text.
  destruct (IndexByte data LF) as [i|] eqn:Hi.
  - destruct (N.ltb_spec i Bufio.MaxScanTokenSize) as [Hlt|_]; [|split; reflexivity].
    destruct (slice_to_before data LF i Hi) as [Hnone Hlen].
    split; [now apply dropCR_one_line|].
    pose proof (dropCR_len (slice_to i data)). lia.
  - destruct (N.ltb_spec (len data) Bufio.MaxScanTokenSize) as [Hlt|_]; [|split; reflexivity].
    split; [now apply dropCR_one_line|].
    pose proof (dropCR_len data). lia.
Qed.

End HandlerFacts.


(** X8: no request removes a file or changes its mode, and a request
    changes at most the one file named after its target: the identifier of
    the destination for a registration, the path component for a visit;
    the form and analytics handlers change nothing. *)
Theorem serve_keeps_files (c : call) (fs : gmap string file) :
  (forall name f, fs !! name = Some f ->
     exists f', (serve c fs).2 !! name = Some f' /\ mode f' = mode f) /\
  (forall name, Some name <> filename_of <$> target_of c ->
     (serve c fs).2 !! name = fs !! name).
Proof.
  destruct (serve_writes c fs) as [->|(h & md & data & Ht & -> & Hmode)].
  - split; [intros name f Hf; now exists f | reflexivity].
  - split.
    + intros name f Hf. destruct (decide (filename_of h = name)) as [<-|Hne].
      * rewrite lookup_insert_eq. eexists. split; [reflexivity|].
        cbn [mode]. now apply Hmode.
      * rewrite lookup_insert_ne by exact Hne. now exists f.
    + intros name Hne. rewrite Ht in Hne. cbn in Hne.
      rewrite lookup_insert_ne; [reflexivity | congruence].
Qed.

(** X9: [goHandler] and [collectHandler] do the same to the directory and
    fail alike; when they succeed the first redirects (302) to the stored
    destination and the second prints [200 OK] and the identifier. *)
Theorem go_and_collect_agree
    (now : Time) (r : Request) (m : string) (fs : gmap string file) :
  (goHandler now r m fs).2 = (collectHandler now r m fs).2 /\
  ((goHandler now r m fs).1 = (collectHandler now r m fs).1 /\
   (goHandler now r m fs).2 = fs \/
   exists l, loadLink m fs = Ok l /\
     (goHandler now r m fs).1 = Redirect (Destination l) StatusFound /\
     (collectHandler now r m fs).1 = Printed ("200 OK " +:+ m)).
Proof.
  rewrite goHandler_cases, collectHandler_cases, loadLink_cases.
  destruct (fs !! filename_of m) as [f|]; [|split; [|left]; auto].
  destruct (owner_may_read f); [|split; [|left]; auto].
  destruct (owner_may_write f); [|split; [|left]; auto].
  split; [reflexivity|]. right. eexists. split; [reflexivity|]. split; reflexivity.
Qed.

(** X10: a hit never changes the destination a link resolves to: once the
    unit holds a line feed, [loadLink] gives the same result before and
    after a successful [gotHit]. *)
Theorem hit_keeps_destination
    (now : Time) (hash ua : string) (fs fs' : gmap string file) (f : file) (i : N)
    (Hunit : fs !! filename_of hash = Some f)
    (Hline : IndexByte (contents f) LF = Some i)
    (Hhit : gotHit now hash ua fs = (None, fs')) :
  loadLink hash fs' = loadLink hash fs.
Proof.
  rewrite gotHit_cases, Hunit in Hhit.
  destruct (owner_may_write f); [|discriminate].
  injection Hhit as <-.
  rewrite !loadLink_cases, lookup_insert_eq, Hunit.
  unfold owner_may_read. cbn [mode contents].
  now rewrite (first_text_append _ _ i Hline).
Qed.

Lemma hit_keeps_destination_witness :
  let fs : gmap string file := {[ filename_of "abc123" := File 384 ("d" +:+ nl) ]} in
  let fs' : gmap string file :=
    {[ filename_of "abc123" := File 384 (("d" +:+ nl) +:+ hit_line sample_time "curl/8") ]} in
  gotHit sample_time "abc123" "curl/8" fs = (None, fs') /\
  loadLink "abc123" fs' = loadLink "abc123" fs.
Proof.
  intros fs fs'.
  assert (Hrun : gotHit sample_time "abc123" "curl/8" fs = (None, fs')).
  { unfold fs, fs'. rewrite gotHit_cases, lookup_singleton_eq.
    cbn [owner_may_write mode contents].
    change (Z.testbit 384 7) with true. cbv iota.
    now rewrite insert_singleton_eq. }
  split; [exact Hrun|].
  apply (hit_keeps_destination sample_time "abc123" "curl/8" fs fs'
           (File 384 ("d" +:+ nl)) 1%N).
  - apply lookup_singleton_eq.
  - reflexivity.
  - exact Hrun.
Defined.

(** X11: the target of a redirect of [goHandler] is the destination
    [loadLink] read; it never holds a line feed and is shorter than the
    64 KiB buffer of the scanner, whatever the unit holds. *)
Theorem redirect_target_is_one_line
    (now : Time) (r : Request) (m url : string) (code : Z) (fs : gmap string file)
    (Hredirect : (goHandler now r m fs).1 = Redirect url code) :
  code = StatusFound /\
  loadLink m fs = Ok {| Destination := url; Hash := m |} /\
  one_line url /\
  (len url < Bufio.MaxScanTokenSize)%N.
Proof.
  rewrite goHandler_cases in Hredirect. rewrite loadLink_cases.
  destruct (fs !! filename_of m) as [f|]; [|discriminate].
  destruct (owner_may_read f); [|discriminate].
  destruct (owner_may_write f); [|discriminate].
  cbn [fst] in Hredirect. injection Hredirect as <- <-.
  destruct (first_text_bounds (contents f)) as [Hone Hlen]. auto.
Qed.

Lemma redirect_target_is_one_line_witness :
  let fs : gmap string file := {[ filename_of "abc123" := File 384 (two_lines +:+ nl) ]} in
  (goHandler sample_time (request_of "" "curl/8") "abc123" fs).1 = Redirect "a" StatusFound /\
  one_line "a".
Proof.
  intros fs.
  assert (Hrun : (goHandler sample_time (request_of "" "curl/8") "abc123" fs).1
                 = Redirect "a" StatusFound).
  { unfold fs. rewrite goHandler_cases, lookup_singleton_eq. reflexivity. }
  split; [exact Hrun|].
  apply (redirect_target_is_one_line sample_time (request_of "" "curl/8")
           "abc123" "a" StatusFound fs Hrun).
Defined.

(** ** Links side by side *)

Section NamingFacts.

Lemma append_cancel_r_len (a b s : string) :
  len a = len b -> a +:+ s = b +:+ s -> a = b.
Proof.
  revert b. induction a as [|x a IH]; intros [|y b]; simpl; intros Hlen Heq;
    try reflexivity; try lia.
  injection Heq as -> Heq. f_equal. apply IH; [lia | exact Heq].
Qed.

Lemma filename_of_inj (h h' : string) : filename_of h = filename_of h' -> h = h'.
Proof.
  unfold filename_of. intros Heq. apply (append_cancel_r_len h h' ".linkanalytics"); [|exact Heq].
  apply (f_equal len) in Heq. rewrite !len_append in Heq. lia.
Qed.

Lemma slice_from_len (a b : string) : slice_from (len a) (a +:+ b) = b.
Proof.
  induction a as [|x a IH]; simpl.
  - now destruct b.
  - destruct (N.eqb_spec (N.succ (len a)) 0) as [E|_]; [lia|].
    now rewrite N.pred_succ.
Qed.

End NamingFacts.

(** X12: registering a destination that is one line, without a trailing
    carriage return and shorter than the scanner's buffer, and then
    visiting the new identifier redirects to that destination (or prints
    [200 OK] and the identifier, for [collectHandler]) and leaves the unit
    holding the destination line and the one hit line. *)
Theorem register_then_visit
    (now : Time) (r rv : Request) (m : string) (fs : gmap string file)
    (Hacc : accessible (Hash (newLink (FormValue r "destination"))) fs)
    (Hline : one_line (FormValue r "destination"))
    (Hcr : ends_with_CR (FormValue r "destination") = false)
    (Hlen : (len (FormValue r "destination") < Bufio.MaxScanTokenSize)%N) :
  let d := FormValue r "destination" in
  let h := Hash (newLink d) in
  let fs1 := (saveHandler r m fs).2 in
  (goHandler now rv h fs1).1 = Redirect d StatusFound /\
  (collectHandler now rv h fs1).1 = Printed ("200 OK " +:+ h) /\
  (goHandler now rv h fs1).2 = (collectHandler now rv h fs1).2 /\
  exists f,
    (goHandler now rv h fs1).2 !! filename_of h = Some f /\
    contents f = d +:+ nl +:+ hit_line now (HeaderGet rv "User-Agent").
Proof.
  intros d h fs1.
  destruct (saveHandler_accessible r m fs Hacc) as (md & H8 & H7 & Hrun).
  fold d h in Hrun. unfold fs1. rewrite Hrun. cbn [snd].
  rewrite goHandler_cases, collectHandler_cases, lookup_insert_eq.
  unfold owner_may_read, owner_may_write. cbn [mode contents]. rewrite H8, H7.
  cbn [fst snd].
  assert (Hd : Bufio.first_text (d +:+ nl) = d).
  { rewrite <- (append_empty_r (d +:+ nl)), append_assoc.
    rewrite first_text_unit by assumption. now apply dropCR_no_CR. }
  rewrite Hd. split; [reflexivity|]. split; [reflexivity|]. split; [reflexivity|].
  eexists. rewrite lookup_insert_eq. split; [reflexivity|].
  cbn [contents]. apply append_assoc.
Qed.

Lemma register_then_visit_witness :
  let d := "https://example.com/a" in
  let h := Hash (newLink d) in
  (goHandler sample_time (request_of "" "curl/8") h
     (saveHandler (request_of d "") "" ∅).2).1
  = Redirect d StatusFound.
Proof.
  intros d h.
  exact (proj1 (register_then_visit sample_time (request_of d "") (request_of "" "curl/8")
                  "" ∅ (accessible_empty _) eq_refl eq_refl eq_refl)).
Defined.

(** X13: a request whose target is another identifier changes nothing of
    what [loadLink], [loadHits] and [analyticsHandler] give for this one:
    registrations and visits of one link never touch another link. *)
Theorem other_links_untouched
    (c : call) (h : string) (r : Request) (fs : gmap string file)
    (Hother : target_of c <> Some h) :
  loadLink h (serve c fs).2 = loadLink h fs /\
  loadHits h (serve c fs).2 = loadHits h fs /\
  (analyticsHandler r h (serve c fs).2).1 = (analyticsHandler r h fs).1.
Proof.
  assert (Hsame : (serve c fs).2 !! filename_of h = fs !! filename_of h).
  { destruct (serve_writes c fs) as [->|(h0 & md & data & Ht & -> & _)]; [reflexivity|].
    apply lookup_insert_ne. intros E. apply filename_of_inj in E. congruence. }
  rewrite !loadLink_cases, !loadHits_cases, !analyticsHandler_cases, Hsame.
  split; [reflexivity|]. split; [reflexivity|].
  destruct (fs !! filename_of h) as [f|]; [|reflexivity].
  now destruct (owner_may_read f).
Qed.

Lemma other_links_untouched_witness :
  let fs : gmap string file := {[ filename_of "abc" := File 384 ("d" +:+ nl) ]} in
  loadHits "def" (serve (Go sample_time (request_of "" "curl/8") "abc") fs).2
  = loadHits "def" fs.
Proof.
  intros fs.
  apply (other_links_untouched (Go sample_time (request_of "" "curl/8") "abc") "def"
           (request_of "" "") fs).
  discriminate.
Defined.

(** X14: registering the same destination twice in a row is the same as
    registering it once: the second [saveHandler] gives the answer of the
    first and leaves the directory the first one made. *)
Theorem save_twice_is_save_once
    (r : Request) (m m' : string) (fs : gmap string file) :
  saveHandler r m' (saveHandler r m fs).2 = saveHandler r m fs.
Proof.
  rewrite (saveHandler_cases r m fs). cbv zeta.
  set (d := FormValue r "destination"). set (h := Hash (newLink d)).
  destruct (fs !! filename_of h) as [f|] eqn:Hf.
  - destruct (owner_may_write f) eqn:Hw; cbn [snd].
    + rewrite saveHandler_cases. cbv zeta. fold d h. rewrite lookup_insert_eq.
      unfold owner_may_write in *. cbn [mode]. rewrite Hw.
      now rewrite insert_insert_eq.
    + rewrite saveHandler_cases. cbv zeta. fold d h. now rewrite Hf, Hw.
  - cbn [snd]. rewrite saveHandler_cases. cbv zeta. fold d h. rewrite lookup_insert_eq.
    unfold owner_may_write. cbn [mode]. change (Z.testbit 384 7) with true.
    now rewrite insert_insert_eq.
Qed.

(** X15: once the registration of a destination has gone through, every
    later visit of its identifier succeeds and its analytics are served,
    whatever requests came in between: the unit is never removed and stays
    readable and writable. *)
Theorem registered_links_resolve
    (cs : list call) (d : string) (now : Time) (r : Request)
    (Hreg : d ∈ registered cs ∅ []) :
  let fs := run cs ∅ in
  let h := Hash (newLink d) in
  exists f,
    fs !! filename_of h = Some f /\
    (goHandler now r h fs).1 = Redirect (Bufio.first_text (contents f)) StatusFound /\
    (collectHandler now r h fs).1 = Printed ("200 OK " +:+ h) /\
    (analyticsHandler r h fs).1
    = Executed "analytics.html"
        (OfAnalytics {| GoTo := {| Destination := Bufio.first_text (contents f); Hash := h |};
                        Analytics := contents f |}).
Proof.
  intros fs h.
  destruct (layout_run cs [] ∅ layout_empty) as [Hregs Hunits].
  destruct (Hregs d Hreg) as [f Hf]. fold fs h in Hf.
  destruct (unit_of_rw _ _ _ (Hunits _ _ Hf)) as [Hr Hw].
  exists f. split; [exact Hf|].
  rewrite goHandler_cases, collectHandler_cases, analyticsHandler_cases, Hf, Hr, Hw.
  repeat split.
Qed.

Lemma registered_links_resolve_witness :
  let d := "https://example.com/a" in
  let h := Hash (newLink d) in
  let cs := [Save (request_of d "") ""; Go sample_time (request_of "" "curl/8") h] in
  d ∈ registered cs ∅ [] /\
  exists f,
    run cs ∅ !! filename_of h = Some f /\
    (goHandler sample_time (request_of "" "") h (run cs ∅)).1
    = Redirect (Bufio.first_text (contents f)) StatusFound /\
    (collectHandler sample_time (request_of "" "") h (run cs ∅)).1
    = Printed ("200 OK " +:+ h) /\
    (analyticsHandler (request_of "" "") h (run cs ∅)).1
    = Executed "analytics.html"
        (OfAnalytics {| GoTo := {| Destination := Bufio.first_text (contents f); Hash := h |};
                        Analytics := contents f |}).
Proof.
  intros d h cs.
  assert (Hreg : d ∈ registered cs ∅ []).
  { assert (E : registered cs ∅ [] = [d]) by (vm_compute; reflexivity).
    rewrite E. apply list_elem_of_here. }
  split; [exact Hreg|].
  exact (registered_links_resolve cs d sample_time (request_of "" "") Hreg).
Defined.

(** ** The hit line and the scanner at their limits *)

Section WidthFacts.

Lemma itoa_two_digits (i : N) :
  (i < 100)%N ->
  itoa i 2 = String (digit (i / 10)) (String (digit (i mod 10)) EmptyString).
Proof.
  intros Hi. unfold itoa.
  replace (S (N.to_nat i + Z.to_nat 2)) with (S (S (S (N.to_nat i)))) by lia.
  cbn [itoa_loop]. change (1 <? 2) with true. rewrite orb_true_r.
  change (2 - 1) with 1. change (1 <? 1) with false. rewrite orb_false_r.
  assert (Hq : (i / 10 < 10)%N) by (apply N.Div0.div_lt_upper_bound; lia).
  apply N.leb_gt in Hq. now rewrite Hq.
Qed.

Lemma itoa_four_digits (i : N) :
  (i < 10000)%N ->
  itoa i 4 =
  String (digit (i / 10 / 10 / 10))
    (String (digit ((i / 10 / 10) mod 10))
       (String (digit ((i / 10) mod 10)) (String (digit (i mod 10)) EmptyString))).
Proof.
  intros Hi. unfold itoa.
  replace (S (N.to_nat i + Z.to_nat 4)) with (S (S (S (S (S (N.to_nat i)))))) by lia.
  cbn [itoa_loop].
  change (1 <? 4) with true. change (4 - 1) with 3.
  change (1 <? 3) with true. change (3 - 1) with 2.
  change (1 <? 2) with true. change (2 - 1) with 1.
  change (1 <? 1) with false. rewrite !orb_true_r, orb_false_r.
  assert (Hq : (i / 10 / 10 / 10 < 10)%N).
  { repeat (apply N.Div0.div_lt_upper_bound). lia. }
  apply N.leb_gt in Hq. now rewrite Hq.
Qed.

Lemma formatHeader_len (prefix : string) (t : Time) :
  four_digit_year t -> len (formatHeader prefix t) = (len prefix + 20)%N.
Proof.
  intros (Hy & Hmo & Hd & Hh & Hmi & Hs). unfold formatHeader.
  rewrite (itoa_four_digits _ Hy), (itoa_two_digits _ Hmo), (itoa_two_digits _ Hd),
    (itoa_two_digits _ Hh), (itoa_two_digits _ Hmi), (itoa_two_digits _ Hs).
  rewrite len_append. simpl. lia.
Qed.

End WidthFacts.

(** X16: for a clock whose year has at most four digits, every hit line is
    [hit: ], the date and time in 19 bytes, a space, the client signature
    and a line feed: the signature starts at byte 25 of the record, so it
    is read back by cutting the first 25 bytes. *)
Theorem hit_record_fixed_width (t : Time) (ua : string)
    (Hclock : four_digit_year t) :
  hit_line t ua = hit_record (t, ua) +:+ nl /\
  len (formatHeader "hit: " t) = 25%N /\
  len (hit_record (t, ua)) = (25 + len ua)%N /\
  slice_from 25 (hit_record (t, ua)) = ua.
Proof.
  assert (Hlen : len (formatHeader "hit: " t) = 25%N)
    by (rewrite formatHeader_len by exact Hclock; reflexivity).
  split; [apply hit_line_record|]. split; [exact Hlen|].
  unfold hit_record. cbn [fst snd]. rewrite len_append, Hlen.
  split; [reflexivity|]. rewrite <- Hlen. apply slice_from_len.
Qed.

Lemma hit_record_fixed_width_witness :
  four_digit_year sample_time /\
  slice_from 25 (hit_record (sample_time, "curl/8")) = "curl/8".
Proof.
  assert (Hclock : four_digit_year sample_time) by (unfold four_digit_year; cbn; lia).
  split; [exact Hclock|].
  apply (hit_record_fixed_width sample_time "curl/8" Hclock).
Defined.

(** X17: a one-line destination of 65536 bytes or more is registered like
    any other, but its line does not fit the buffer of the scanner:
    [loadLink] ignores the failed scan and returns a link with an empty
    destination, and a visit redirects to the empty string. *)
Theorem overlong_destination_resolves_empty
    (now : Time) (r rv : Request) (m : string) (fs : gmap string file)
    (Hacc : accessible (Hash (newLink (FormValue r "destination"))) fs)
    (Hline : one_line (FormValue r "destination"))
    (Hlong : (Bufio.MaxScanTokenSize <= len (FormValue r "destination"))%N) :
  let d := FormValue r "destination" in
  let h := Hash (newLink d) in
  (saveHandler r m fs).1 = Redirect ("/analytics/" +:+ h) StatusFound /\
  loadLink h (saveHandler r m fs).2 = Ok {| Destination := EmptyString; Hash := h |} /\
  loadHits h (saveHandler r m fs).2 = Ok (d +:+ nl) /\
  (goHandler now rv h (saveHandler r m fs).2).1 = Redirect EmptyString StatusFound.
Proof.
  intros d h.
  destruct (saveHandler_accessible r m fs Hacc) as (md & H8 & H7 & Hrun).
  fold d h in Hrun. rewrite Hrun. cbn [fst snd].
  assert (Hd : Bufio.first_text (d +:+ nl) = EmptyString).
  { unfold Bufio.first_text, nl. rewrite IndexByte_first_LF by exact Hline.
    fold d in Hlong. apply N.ltb_ge in Hlong. now rewrite Hlong. }
  rewrite loadLink_cases, loadHits_cases, goHandler_cases, lookup_insert_eq.
  unfold owner_may_read, owner_may_write. cbn [mode contents]. rewrite H8, H7, Hd.
  repeat split.
Qed.

Lemma overlong_destination_resolves_empty_witness :
  let r := request_of long_destination "" in
  let h := Hash (newLink (FormValue r "destination")) in
  loadLink h (saveHandler r "" ∅).2 = Ok {| Destination := EmptyString; Hash := h |}.
Proof.
  intros r h.
  apply (overlong_destination_resolves_empty sample_time r (request_of "" "") "" ∅).
  - apply accessible_empty.
  - vm_compute. reflexivity.
  - apply N.leb_le. vm_compute. reflexivity.
Defined.

(** ** What requests do to the set of files and to a history *)

Section HistoryFacts.

Implicit Types (fs : gmap string file) (f : file).

Lemma lines_nonempty (s : string) : s <> EmptyString -> lines s <> [].
Proof.
  destruct s as [|x s]; [congruence|]. intros _. simpl.
  destruct (Ascii.eqb x LF); [discriminate|]. destruct (lines s); discriminate.
Qed.

Lemma unit_terminated (d : string) (evs : list (Time * string)) :
  exists x, d +:+ nl +:+ hit_bytes evs = x +:+ nl.
Proof.
  destruct evs as [|ev evs _] using rev_ind.
  - exists d. cbn [hit_bytes]. now rewrite append_empty_r.
  - exists (d +:+ nl +:+ hit_bytes evs +:+ hit_record ev).
    rewrite hit_bytes_app, hit_bytes_cons. cbn [hit_bytes].
    rewrite append_empty_r, hit_line_record, !append_assoc. now destruct ev.
Qed.

Lemma append_nl_nonempty (x : string) : x +:+ nl <> EmptyString.
Proof. destruct x; discriminate. Qed.

Lemma digit_value (v : Z) : 0 <= v < 16 -> hex_value (Hex.digit v) = v.
Proof.
  intros Hv.
  assert (Hcases : v = 0 \/ v = 1 \/ v = 2 \/ v = 3 \/ v = 4 \/ v = 5 \/ v = 6 \/ v = 7 \/
                   v = 8 \/ v = 9 \/ v = 10 \/ v = 11 \/ v = 12 \/ v = 13 \/ v = 14 \/ v = 15)
    by lia.
  repeat (destruct Hcases as [->|Hcases]; [reflexivity|]). subst v. reflexivity.
Qed.

Lemma hex_bytes_EncodeToString (src : list Z) :
  Forall is_byte src -> hex_bytes (Hex.EncodeToString src) = src.
Proof.
  induction 1 as [|v r Hv Hr IH]; [reflexivity|].
  unfold is_byte in Hv. cbn [Hex.EncodeToString hex_bytes]. rewrite IH. f_equal.
  rewrite !digit_value.
  - rewrite Z.shiftr_div_pow2 by lia. change 0x0f with (Z.ones 4).
    rewrite Z.land_ones by lia. change (2 ^ 4) with 16.
    symmetry. apply Z.div_mod. lia.
  - change 0x0f with (Z.ones 4). apply (land_low_bits v 4). lia.
  - rewrite Z.shiftr_div_pow2 by lia. change (2 ^ 4) with 16.
    split; [apply Z.div_pos; lia | apply Z.div_lt_upper_bound; lia].
Qed.

End HistoryFacts.

(** X18: only a registration creates a file: every other request leaves
    the set of file names as it is, and a registration adds at most the
    name of its unit. *)
Theorem only_registration_creates (c : call) (fs : gmap string file) :
  dom (serve c fs).2 = dom fs \/
  exists r m,
    c = Save r m /\
    fs !! filename_of (Hash (newLink (FormValue r "destination"))) = None /\
    dom (serve c fs).2
    = {[ filename_of (Hash (newLink (FormValue r "destination"))) ]} ∪ dom fs.
Proof.
  destruct c as [r m|r m|r m|now r m|now r m]; cbn [serve].
  - now left.
  - rewrite saveHandler_cases. cbv zeta.
    destruct (fs !! filename_of _) as [f|] eqn:Hf.
    + left. destruct (owner_may_write f); [|reflexivity]. cbn [snd].
      apply dom_insert_lookup_L. now rewrite Hf.
    + right. exists r, m. split; [reflexivity|]. split; [exact Hf|].
      cbn [snd]. apply dom_insert_L.
  - left. now rewrite analyticsHandler_directory.
  - left. rewrite goHandler_cases.
    destruct (fs !! filename_of m) as [f|] eqn:Hf; [|reflexivity].
    destruct (owner_may_read f); [|reflexivity].
    destruct (owner_may_write f); [|reflexivity]. cbn [snd].
    apply dom_insert_lookup_L. now rewrite Hf.
  - left. rewrite collectHandler_cases.
    destruct (fs !! filename_of m) as [f|] eqn:Hf; [|reflexivity].
    destruct (owner_may_read f); [|reflexivity].
    destruct (owner_may_write f); [|reflexivity]. cbn [snd].
    apply dom_insert_lookup_L. now rewrite Hf.
Qed.

(** X19: in a directory the server made from an empty one, a visit of an
    existing unit with a one-line client signature adds exactly one record
    at the end of the history and keeps the destination line and every
    earlier record, whatever the destination is. *)
Theorem visit_adds_one_record
    (cs : list call) (now : Time) (r : Request) (m : string) (f : file)
    (Hunit : run cs ∅ !! filename_of m = Some f)
    (Hua : one_line (HeaderGet r "User-Agent")) :
  let ua := HeaderGet r "User-Agent" in
  exists f',
    (goHandler now r m (run cs ∅)).2 !! filename_of m = Some f' /\
    (collectHandler now r m (run cs ∅)).2 !! filename_of m = Some f' /\
    contents f' = contents f +:+ hit_line now ua /\
    destination_line (contents f') = destination_line (contents f) /\
    hit_records (contents f') = hit_records (contents f) ++ [hit_record (now, ua)].
Proof.
  intros ua.
  destruct (layout_run cs [] ∅ layout_empty) as [_ Hunits].
  destruct (Hunits _ _ Hunit) as (Hm & d & evs & _ & _ & Hc).
  destruct (unit_of_rw _ _ _ (Hunits _ _ Hunit)) as [Hr Hw].
  exists (File (mode f) (contents f +:+ hit_line now ua)).
  rewrite goHandler_cases, collectHandler_cases, Hunit, Hr, Hw. cbn [snd].
  rewrite lookup_insert_eq. split; [reflexivity|]. split; [reflexivity|].
  cbn [contents]. split; [reflexivity|].
  destruct (unit_terminated d evs) as [x Hx]. rewrite Hc, Hx.
  unfold destination_line, hit_records.
  rewrite lines_append_terminated by (right; apply ends_with_LF_append_nl).
  rewrite hit_line_record, (lines_one _ (hit_record_one_line (now, ua) Hua)).
  pose proof (lines_nonempty (x +:+ nl) (append_nl_nonempty x)) as Hne.
  destruct (lines (x +:+ nl)) as [|l ls]; [congruence|]. split; reflexivity.
Qed.

Lemma visit_adds_one_record_witness :
  let h := Hash (newLink two_lines) in
  let cs := [Save (request_of two_lines "") ""] in
  let f := File 384 (two_lines +:+ nl) in
  run cs ∅ !! filename_of h = Some f /\
  exists f',
    (goHandler sample_time (request_of "" "curl/8") h (run cs ∅)).2 !! filename_of h
    = Some f' /\
    (collectHandler sample_time (request_of "" "curl/8") h (run cs ∅)).2 !! filename_of h
    = Some f' /\
    contents f' = contents f +:+ hit_line sample_time "curl/8" /\
    destination_line (contents f') = destination_line (contents f) /\
    hit_records (contents f')
    = hit_records (contents f) ++ [hit_record (sample_time, "curl/8")].
Proof.
  intros h cs f.
  assert (Hunit : run cs ∅ !! filename_of h = Some f).
  { unfold cs. cbn [run serve snd]. rewrite saveHandler_cases. cbv zeta.
    rewrite lookup_empty. cbn [snd]. apply lookup_insert_eq. }
  split; [exact Hunit|].
  exact (visit_adds_one_record cs sample_time (request_of "" "curl/8") h f Hunit eq_refl).
Defined.

(** X20: the hexadecimal form loses nothing of the digest: two
    destinations get the same identifier exactly when their SHA-256
    digests are equal. *)
Theorem same_identifier_same_digest (d1 d2 : string) :
  Hash (newLink d1) = Hash (newLink d2) <->
  Sha256.sum (bytes d1) = Sha256.sum (bytes d2).
Proof.
  unfold newLink. cbn [Hash]. split; [|now intros ->].
  intros Heq. apply (f_equal hex_bytes) in Heq.
  now rewrite !hex_bytes_EncodeToString in Heq by apply sum_range.
Qed.
